(** * Organization views of the judge site (judge/views/organization.py)

    A shallow embedding of the request handlers of
    [judge/views/organization.py]: the world a handler runs in (the
    profile and organization tables, the in-memory profile objects, the
    cache, the clock), a small state-and-exception monad for Python's
    control flow, the handlers themselves, and the properties the
    specification states about them. *)

From stdpp Require Import gmap strings list fin_maps sorting.

#[local] Set Warnings "-clear-no-such-hyp".

Local Open Scope Z_scope.
Local Open Scope string_scope.

(** ** Data model *)

(** [django.contrib.auth] user rows, as far as the views read them. *)
Module AuthUser.
Record t := mk { username : string; is_active : bool }.
End AuthUser.

(** [judge.models.Organization]. [id] is the primary key, [key] the slug. *)
Module Organization.
Record t := mk {
  id : Z;
  key : string;
  name : string;
  about : string;
  registrant : option Z
}.
End Organization.

(** [judge.models.Profile]. The foreign key to an organization is the
    column [organization_id]; [None] is SQL NULL. [points] is the
    reputation score, a whole number here. *)
Module Profile.
Record t := mk {
  pk : Z;
  user : AuthUser.t;
  points : Z;
  organization_id : option Z;
  organization_join_time : option Z
}.

Definition set_organization_id (v : option Z) (p : t) : t :=
  mk (pk p) (user p) (points p) v (organization_join_time p).

Definition set_organization_join_time (v : option Z) (p : t) : t :=
  mk (pk p) (user p) (points p) (organization_id p) v.
End Profile.

(** Python object references to in-memory [Profile] instances. *)
Definition loc := Z.

(** [request.user]: Django's [AnonymousUser] has no [profile] attribute. *)
Inductive User :=
| AnonymousUser
| AuthenticatedUser (profile : loc).

Inductive HttpMethod := GET | HEAD | POST | PUT | DELETE.

Module HttpRequest.
Record t := mk {
  method : HttpMethod;
  user : User;
  POST : gmap string string
}.
End HttpRequest.

(** A cache key built by [make_template_fragment_key]: the fragment name
    and the values it varies on (Django hashes the latter into the key). *)
Definition CacheKey : Type := string * list Z.

Definition make_template_fragment_key (fragment_name : string) (vary_on : list Z) : CacheKey :=
  (fragment_name, vary_on).

(** Externally visible effects, in the order they happen. *)
Inductive Effect :=
| ProfileSave (p : Profile.t)
| OrganizationSave (o : Organization.t)
| CacheDelete (k : CacheKey).

Module World.
Record t := mk {
  heap : gmap loc Profile.t;
  profiles : list Profile.t;
  organizations : list Organization.t;
  cache : gmap CacheKey string;
  now : Z;
  effects : list Effect
}.

Definition set_heap (h : gmap loc Profile.t) (w : t) : t :=
  mk h (profiles w) (organizations w) (cache w) (now w) (effects w).
Definition set_profiles (ps : list Profile.t) (w : t) : t :=
  mk (heap w) ps (organizations w) (cache w) (now w) (effects w).
Definition set_organizations (os : list Organization.t) (w : t) : t :=
  mk (heap w) (profiles w) os (cache w) (now w) (effects w).
Definition set_cache (c : gmap CacheKey string) (w : t) : t :=
  mk (heap w) (profiles w) (organizations w) c (now w) (effects w).
Definition log (e : Effect) (w : t) : t :=
  mk (heap w) (profiles w) (organizations w) (cache w) (now w) (effects w ++ [e]).
End World.

(** ** Control flow: state and exceptions *)

Inductive exn :=
| Http404
| PermissionDenied
| AttributeError
| NotImplementedError
| DoesNotExist
| MultipleObjectsReturned.

Global Instance exn_eq_dec : EqDecision exn.
Proof. solve_decision. Defined.

Inductive outcome (A : Type) :=
| Returns (a : A)
| Raises (e : exn).
Arguments Returns {A} a.
Arguments Raises {A} e.

Definition M (A : Type) : Type := World.t → outcome A * World.t.

Global Instance M_ret : MRet M := λ A a w, (Returns a, w).
Global Instance M_bind : MBind M := λ A B f c w,
  match c w with
  | (Returns a, w') => f a w'
  | (Raises e, w') => (Raises e, w')
  end.

Definition raise {A} (e : exn) : M A := λ w, (Raises e, w).
Definition gets {A} (f : World.t → A) : M A := λ w, (Returns (f w), w).
Definition modify (f : World.t → World.t) : M unit := λ w, (Returns tt, f w).

(** [try: a = c  except e: return h  else: k a]; the handler and the
    continuation run outside the [try]. *)
Definition try_except {A B} (c : M A) (e : exn) (h : M B) (k : A → M B) : M B := λ w,
  match c w with
  | (Returns a, w') => k a w'
  | (Raises e', w') => if decide (e' = e) then h w' else (Raises e', w')
  end.

(** ** Responses *)

(** The view classes of the module. *)
Inductive ViewClass :=
| OrganizationList
| OrganizationHome
| OrganizationUsers
| OrganizationMembershipChange
| JoinOrganization
| LeaveOrganization
| NewOrganization
| EditOrganization.

Inductive Url :=
| reverse (viewname : string) (args : list string)
| get_absolute_url (o : Organization.t)
| login_url.

Inductive ContextValue :=
| CString (s : string)
| CObject (o : option Organization.t)
| COrganizations (l : list Organization.t)
| CUsers (l : list (Z * Profile.t))
| CForm (data : gmap string string)
| CView (v : ViewClass).

Inductive HttpResponse :=
| GenericMessage (title message : string)
| HttpResponseRedirect (url : Url)
| TemplateResponse (template_name : string) (context : gmap string ContextValue)
| HttpResponseNotAllowed.

(** Modelled from the spec: [judge.utils.views.generic_message] lives
    outside this module; it is the "generic-message rendering helper" that
    turns a title and a message into "a generic human-readable message
    page". *)
Definition generic_message (request : HttpRequest.t) (title message : string) : HttpResponse :=
  GenericMessage title message.

(** The double-quote character, for messages that quote a key. *)
Definition dquote : string := String (Ascii.ascii_of_nat 34) EmptyString.

(** ** Primitive operations on the world *)

(** Reading the attributes of the profile object behind a reference. *)
Definition deref (profile : loc) : M Profile.t := λ w,
  match World.heap w !! profile with
  | Some p => (Returns p, w)
  | None => (Raises AttributeError, w)
  end.

Definition setattr (profile : loc) (f : Profile.t → Profile.t) : M unit :=
  p ← deref profile;
  modify (λ w, World.set_heap (<[profile := f p]> (World.heap w)) w).

(** [request.user.profile] *)
Definition request_user_profile (request : HttpRequest.t) : M loc :=
  match HttpRequest.user request with
  | AuthenticatedUser profile => mret profile
  | AnonymousUser => raise AttributeError
  end.

(** [timezone.now()] *)
Definition timezone_now : M Z := gets World.now.

(** Writing a row: UPDATE the row with the same primary key, else INSERT. *)
Fixpoint update_row (p : Profile.t) (rows : list Profile.t) : list Profile.t :=
  match rows with
  | [] => [p]
  | r :: rows' =>
      if decide (Profile.pk r = Profile.pk p) then p :: rows'
      else r :: update_row p rows'
  end.

(** [profile.save()] *)
Definition Profile_save (profile : loc) : M unit :=
  p ← deref profile;
  modify (λ w, World.log (ProfileSave p)
                 (World.set_profiles (update_row p (World.profiles w)) w)).

(** [cache.delete(key)] *)
Definition cache_delete (k : CacheKey) : M unit :=
  modify (λ w, World.log (CacheDelete k)
                 (World.set_cache (delete k (World.cache w)) w)).

(** [queryset.filter(key=slug).get()] *)
Definition has_key (slug : string) (o : Organization.t) : Prop :=
  Organization.key o = slug.

Global Instance has_key_dec slug o : Decision (has_key slug o).
Proof. unfold has_key. apply _. Defined.

Definition queryset_get (rows : list Organization.t) : M Organization.t :=
  match rows with
  | [] => raise DoesNotExist
  | [o] => mret o
  | _ => raise MultipleObjectsReturned
  end.

(** Django's [SingleObjectMixin.get_object] with [slug_field = 'key'] and
    [slug_url_kwarg = 'key']: without a slug it raises [AttributeError],
    and [ObjectDoesNotExist] becomes [Http404]. *)
Definition SingleObjectMixin_get_object (kwargs : gmap string string) : M Organization.t :=
  match kwargs !! "key" with
  | None => raise AttributeError
  | Some slug =>
      rows ← gets World.organizations;
      try_except (queryset_get (filter (has_key slug) rows)) DoesNotExist
                 (raise Http404) mret
  end.

(** ** The views *)

(** What Python passes in a positional argument slot. *)
Inductive PyObj :=
| PRequest (r : HttpRequest.t)
| PView (v : ViewClass).

(** [organization_not_found]: [if key:] is false for [None] and for the
    empty string. *)
Definition organization_not_found (request : HttpRequest.t) (key : option string) : HttpResponse :=
  match key with
  | Some (String a k) =>
      generic_message request "No such organization"
        ("Could not find an organization with the key " +:+ dquote +:+ String a k +:+ dquote +:+ ".")
  | _ =>
      generic_message request "No such organization" "Could not find such organization."
  end.

(** [JoinOrganization.handle] *)
Definition JoinOrganization_handle (request : HttpRequest.t) (org : Organization.t)
    (profile : loc) : M (option HttpResponse) :=
  p ← deref profile;
  match Profile.organization_id p with
  | Some _ =>
      mret (Some (generic_message request "Joining organization"
                    "You are already in an organization."))
  | None =>
      setattr profile (Profile.set_organization_id (Some (Organization.id org)));;
      t ← timezone_now;
      setattr profile (Profile.set_organization_join_time (Some t));;
      Profile_save profile;;
      cache_delete (make_template_fragment_key "org_member_count" [Organization.id org]);;
      mret None
  end.

(** [LeaveOrganization.handle] *)
Definition LeaveOrganization_handle (request : HttpRequest.t) (org : Organization.t)
    (profile : loc) : M (option HttpResponse) :=
  p ← deref profile;
  if decide (Some (Organization.id org) ≠ Profile.organization_id p) then
    mret (Some (generic_message request "Leaving organization"
                  ("You are not in " +:+ dquote +:+ Organization.key org +:+ dquote +:+ ".")))
  else
    setattr profile (Profile.set_organization_id None);;
    setattr profile (Profile.set_organization_join_time None);;
    Profile_save profile;;
    cache_delete (make_template_fragment_key "org_member_count" [Organization.id org]);;
    mret None.

(** [self.handle]: the two subclasses override the base method, which
    raises [NotImplementedError]. *)
Definition handle (self : ViewClass) (request : HttpRequest.t) (org : Organization.t)
    (profile : loc) : M (option HttpResponse) :=
  match self with
  | JoinOrganization => JoinOrganization_handle request org profile
  | LeaveOrganization => LeaveOrganization_handle request org profile
  | OrganizationMembershipChange => raise NotImplementedError
  | _ => raise AttributeError
  end.

(** [OrganizationMembershipChange.get] *)
Definition OrganizationMembershipChange_get (self : ViewClass) (request : HttpRequest.t)
    (args : list PyObj) (kwargs : gmap string string) : M HttpResponse :=
  try_except (SingleObjectMixin_get_object kwargs) Http404
    (mret (organization_not_found request (kwargs !! "key")))
    (λ org,
       profile ← request_user_profile request;
       response ← handle self request org profile;
       match response with
       | Some r => mret r
       | None => mret (HttpResponseRedirect (reverse "organization_home" [Organization.key org]))
       end).

(** ** The member roster *)

(** [self.object.members]: the profile rows whose foreign key is [org]. *)
Definition is_member (org : Organization.t) (p : Profile.t) : Prop :=
  Profile.organization_id p = Some (Organization.id org).

Global Instance is_member_dec org p : Decision (is_member org p).
Proof. unfold is_member. apply _. Defined.

(** [.filter(points__gt=0, user__is_active=True)] *)
Definition ranked_user (p : Profile.t) : Prop :=
  (0 < Profile.points p)%Z ∧ AuthUser.is_active (Profile.user p) = true.

Global Instance ranked_user_dec p : Decision (ranked_user p).
Proof. unfold ranked_user. apply _. Defined.

(** [.order_by('-points')]: rows with more points come first. *)
Definition points_desc (p q : Profile.t) : Prop :=
  (Profile.points q ≤ Profile.points p)%Z.

Global Instance points_desc_dec p q : Decision (points_desc p q).
Proof. unfold points_desc. apply _. Defined.

Definition order_by_points_desc (rows : list Profile.t) : list Profile.t :=
  merge_sort points_desc rows.

(** Modelled from the spec: [judge.utils.ranker.ranker] lives outside this
    module; it is the "utility producing dense rank numbers for a sequence
    ordered by a score": the first item has rank 1, an item with the score
    of the one before it shares its rank, and any other item has the next
    rank. *)
Fixpoint ranker_from (rank : Z) (last : option Z) (items : list Profile.t)
    : list (Z * Profile.t) :=
  match items with
  | [] => []
  | item :: items' =>
      let rank' := if decide (last = Some (Profile.points item)) then rank else rank + 1 in
      (rank', item) :: ranker_from rank' (Some (Profile.points item)) items'
  end.

Definition ranker (items : list Profile.t) : list (Z * Profile.t) :=
  ranker_from 0 None items.

(** The queryset handed to [ranker] by [OrganizationUsers.get_context_data]. *)
Definition roster (org : Organization.t) (rows : list Profile.t) : list Profile.t :=
  order_by_points_desc (filter ranked_user (filter (is_member org) rows)).

(** ** Django's generic views, as far as these views rely on them *)

(** [SingleObjectMixin.get_context_data] with
    [context_object_name = 'organization'], followed by
    [ContextMixin.get_context_data], which adds the view. *)
Definition SingleObjectMixin_get_context_data (self : ViewClass)
    (object : option Organization.t) (kwargs : gmap string ContextValue)
    : gmap string ContextValue :=
  let context :=
    match object with
    | Some o => <["organization" := (CObject (Some o))]>
                  (<["object" := (CObject (Some o))]> ∅)
    | None => ∅
    end in
  <["view" := CView self]> (kwargs ∪ context).

(** [OrganizationUsers.get_context_data] *)
Definition OrganizationUsers_get_context_data (object : Organization.t)
    (kwargs : gmap string ContextValue) : M (gmap string ContextValue) :=
  let context := SingleObjectMixin_get_context_data OrganizationUsers (Some object) kwargs in
  let context := <["title" := (CString (Organization.name object +:+ " Members"))]> context in
  rows ← gets World.profiles;
  mret (<["users" := (CUsers (ranker (roster object rows)))]> context).

(** Modelled from the spec: [judge.utils.views.TitleMixin] lives outside
    this module; it is the base-class convenience for "title-setting": the
    context's [title] is [self.get_title()]. [OrganizationHome.get_title]
    returns [self.object.name]. *)
Definition OrganizationHome_get_context_data (object : Organization.t)
    (kwargs : gmap string ContextValue) : M (gmap string ContextValue) :=
  let context := SingleObjectMixin_get_context_data OrganizationHome (Some object) kwargs in
  mret (<["title" := (CString (Organization.name object))]> context).

Definition template_name (self : ViewClass) : string :=
  match self with
  | OrganizationList => "organizations.jade"
  | OrganizationHome => "organization.jade"
  | OrganizationUsers => "users.jade"
  | NewOrganization => "new_organization.jade"
  | EditOrganization => "edit_organization.jade"
  | _ => ""
  end.

(** [BaseDetailView.get] for the two detail views. *)
Definition DetailView_get (self : ViewClass) (request : HttpRequest.t)
    (args : list PyObj) (kwargs : gmap string string) : M HttpResponse :=
  object ← SingleObjectMixin_get_object kwargs;
  context ←
    match self with
    | OrganizationUsers =>
        OrganizationUsers_get_context_data object {["object" := (CObject (Some object))]}
    | _ =>
        OrganizationHome_get_context_data object {["object" := (CObject (Some object))]}
    end;
  mret (TemplateResponse (template_name self) context).

(** [BaseListView.get] for [OrganizationList]. *)
Definition ListView_get (self : ViewClass) (request : HttpRequest.t)
    (args : list PyObj) (kwargs : gmap string string) : M HttpResponse :=
  rows ← gets World.organizations;
  mret (TemplateResponse (template_name self)
          (<["title" := (CString "Organizations")]>
             (<["view" := CView self]>
                (<["organizations" := (COrganizations rows)]>
                   (<["object_list" := (COrganizations rows)]> ∅))))).

(** Saving an organization instance: UPDATE the row with its primary key,
    or INSERT it under a fresh one when it has none yet. *)
Definition fresh_id (rows : list Organization.t) : Z :=
  1 + foldr Z.max 0 (Organization.id <$> rows).

Fixpoint update_organization (o : Organization.t) (rows : list Organization.t)
    : list Organization.t :=
  match rows with
  | [] => [o]
  | r :: rows' =>
      if decide (Organization.id r = Organization.id o) then o :: rows'
      else r :: update_organization o rows'
  end.

Definition Organization_save (o : Organization.t) : M unit :=
  modify (λ w, World.log (OrganizationSave o)
                 (World.set_organizations (update_organization o (World.organizations w)) w)).

(** ** The model form *)

(** The field declarations of [judge.models.Organization] live outside this
    module, so the validation of a form built from them is a parameter:
    [clean_fields fields data] is what Django's [ModelForm] over [fields]
    makes of the submitted [data], either the cleaned values, in the order
    of [fields], or [None] when a value is rejected. *)
Class ModelForm :=
  clean_fields : list string → gmap string string → option (list string).

(** [request.POST]: Django parses the form-encoded body, the record's
    [POST], for the POST method only; for every other method it is empty. *)
Definition request_POST (request : HttpRequest.t) : gmap string string :=
  match HttpRequest.method request with
  | POST => HttpRequest.POST request
  | _ => ∅
  end.

(** ** Sample data *)

Module Sample.
Definition alice := AuthUser.mk "alice" true.
Definition bob := AuthUser.mk "bob" true.
Definition carol := AuthUser.mk "carol" false.
Definition dave := AuthUser.mk "dave" true.

Definition dmoj := Organization.mk 1 "dmoj" "DMOJ" "Modern online judge" (Some 3).
Definition acm := Organization.mk 2 "acm" "ACM" "Contest club" (Some 4).

(** A profile outside every organization, one in [dmoj], one in [acm]. *)
Definition newcomer := Profile.mk 7 alice 100 None None.
Definition member := Profile.mk 8 bob 120 (Some 1) (Some 500).
Definition outsider := Profile.mk 9 dave 30 (Some 2) (Some 600).

Definition world : World.t :=
  World.mk {[10 := newcomer; 11 := member; 12 := outsider]}
           [newcomer; member; outsider]
           [dmoj; acm]
           {[make_template_fragment_key "org_member_count" [1] := "1 member"]}
           1000
           [].

Definition request (method : HttpMethod) (profile : loc) : HttpRequest.t :=
  HttpRequest.mk method (AuthenticatedUser profile) ∅.

Definition kwargs (slug : string) : gmap string string := {["key" := slug]}.

(** A model all of whose form fields are required and must not be blank. *)
Definition clean : ModelForm := λ fields data,
  mapM (λ f, data !! f ≫= λ v, if decide (v = "") then None else Some v) fields.
End Sample.

Section Views.
Context `{model : ModelForm}.

(** [NewOrganization.form_valid], on a form with [fields = ['name', 'key',
    'about']]: the registrant is the requesting profile, then the inherited
    [ModelFormMixin.form_valid] saves the new instance and redirects. *)
Definition NewOrganization_form_valid (request : HttpRequest.t)
    (name key about : string) : M HttpResponse :=
  profile ← request_user_profile request;
  p ← deref profile;
  rows ← gets World.organizations;
  let object := Organization.mk (fresh_id rows) key name about (Some (Profile.pk p)) in
  Organization_save object;;
  mret (HttpResponseRedirect (get_absolute_url object)).

Definition form_response (self : ViewClass) (data : gmap string string) : HttpResponse :=
  TemplateResponse (template_name self)
    (<["view" := CView self]> (<["form" := (CForm data)]> ∅)).

(** [BaseCreateView.get] *)
Definition CreateView_get (self : ViewClass) (request : HttpRequest.t)
    (args : list PyObj) (kwargs : gmap string string) : M HttpResponse :=
  mret (form_response self ∅).

(** [BaseCreateView.post]: the form over [fields = ['name', 'key', 'about']]
    is bound to [request.POST]; it is valid when the model accepts the
    values and the key is not taken (the organization key is unique). *)
Definition CreateView_post (self : ViewClass) (request : HttpRequest.t)
    (args : list PyObj) (kwargs : gmap string string) : M HttpResponse :=
  rows ← gets World.organizations;
  match clean_fields ["name"; "key"; "about"] (request_POST request) with
  | Some [name; key; about] =>
      if decide (filter (has_key key) rows = []) then
        NewOrganization_form_valid request name key about
      else mret (form_response self (request_POST request))
  | _ => mret (form_response self (request_POST request))
  end.

(** [EditOrganization.get_object]: the inherited lookup, then the
    membership check; the method ends without a [return], so a caller
    receives [None]. *)
Definition EditOrganization_get_object (request : HttpRequest.t)
    (kwargs : gmap string string) : M (option Organization.t) :=
  object ← SingleObjectMixin_get_object kwargs;
  profile ← request_user_profile request;
  p ← deref profile;
  if decide (Some (Organization.id object) ≠ Profile.organization_id p) then
    raise PermissionDenied
  else mret None.

(** [BaseUpdateView.get]: [self.object = self.get_object()], then the form
    page. *)
Definition UpdateView_get (self : ViewClass) (request : HttpRequest.t)
    (args : list PyObj) (kwargs : gmap string string) : M HttpResponse :=
  object ← EditOrganization_get_object request kwargs;
  mret (TemplateResponse (template_name self)
          (<["form" := (CForm match object with
                                    | Some o => <["about" := Organization.about o]>
                                                  {["name" := Organization.name o]}
                                    | None => ∅
                                    end)]>
             (SingleObjectMixin_get_context_data self object ∅))).

(** [BaseUpdateView.post] with [fields = ['name', 'about']]: the form is
    bound to [self.object], or to a new instance when that is [None]; a
    valid form writes its two fields to the instance and saves it. *)
Definition UpdateView_post (self : ViewClass) (request : HttpRequest.t)
    (args : list PyObj) (kwargs : gmap string string) : M HttpResponse :=
  object ← EditOrganization_get_object request kwargs;
  match clean_fields ["name"; "about"] (request_POST request) with
  | Some [name; about] =>
      rows ← gets World.organizations;
      let instance :=
        match object with
        | Some o => Organization.mk (Organization.id o) (Organization.key o) name about
                      (Organization.registrant o)
        | None => Organization.mk (fresh_id rows) "" name about None
        end in
      Organization_save instance;;
      mret (HttpResponseRedirect (get_absolute_url instance))
  | _ => mret (form_response self (request_POST request))
  end.

(** ** Dispatch *)

(** [getattr(self, request.method.lower(), self.http_method_not_allowed)] *)
Definition handler (self : ViewClass) (method : HttpMethod)
    : option (HttpRequest.t → list PyObj → gmap string string → M HttpResponse) :=
  match method, self with
  | (GET | HEAD), OrganizationList => Some (ListView_get self)
  | (GET | HEAD), (OrganizationHome | OrganizationUsers) => Some (DetailView_get self)
  | (GET | HEAD), (OrganizationMembershipChange | JoinOrganization | LeaveOrganization) =>
      Some (OrganizationMembershipChange_get self)
  | (GET | HEAD), NewOrganization => Some (CreateView_get self)
  | (GET | HEAD), EditOrganization => Some (UpdateView_get self)
  | (POST | PUT), NewOrganization => Some (CreateView_post self)
  | (POST | PUT), EditOrganization => Some (UpdateView_post self)
  | _, _ => None
  end.

(** Django's [View.dispatch(self, request, *args, **kwargs)]. It reads
    [request.method] first; a view object has no such attribute. *)
Definition View_dispatch (self : ViewClass) (request : PyObj) (args : list PyObj)
    (kwargs : gmap string string) : M HttpResponse :=
  match request with
  | PView _ => raise AttributeError
  | PRequest r =>
      match handler self (HttpRequest.method r) with
      | Some h => h r args kwargs
      | None => mret HttpResponseNotAllowed
      end
  end.

(** [OrganizationMixin.dispatch]: the call to the next [dispatch] passes
    [self] explicitly, in front of [request]. In every view of this module
    the next [dispatch] in the method resolution order is [View.dispatch]. *)
Definition OrganizationMixin_dispatch (self : ViewClass) (request : HttpRequest.t)
    (args : list PyObj) (kwargs : gmap string string) : M HttpResponse :=
  try_except (View_dispatch self (PView self) (PRequest request :: args) kwargs) Http404
    (mret (organization_not_found request (kwargs !! "key")))
    mret.

(** Modelled from the spec: [judge.utils.views.LoginRequiredMixin] lives
    outside this module; it is the base-class convenience for "login
    enforcement": "Unauthenticated → framework redirect to login",
    otherwise the next [dispatch] runs. *)
Definition LoginRequiredMixin_dispatch
    (super : HttpRequest.t → list PyObj → gmap string string → M HttpResponse)
    (request : HttpRequest.t) (args : list PyObj) (kwargs : gmap string string)
    : M HttpResponse :=
  match HttpRequest.user request with
  | AnonymousUser => mret (HttpResponseRedirect login_url)
  | AuthenticatedUser _ => super request args kwargs
  end.

(** [profile.organization]: the related row, [None] for a NULL key. *)
Definition has_id (i : Z) (o : Organization.t) : Prop := Organization.id o = i.

Global Instance has_id_dec i o : Decision (has_id i o).
Proof. unfold has_id. apply _. Defined.

Definition Profile_organization (p : Profile.t) : M (option Organization.t) :=
  match Profile.organization_id p with
  | None => mret None
  | Some i =>
      rows ← gets World.organizations;
      o ← queryset_get (filter (has_id i) rows);
      mret (Some o)
  end.

(** [NewOrganization.dispatch] *)
Definition NewOrganization_dispatch (request : HttpRequest.t) (args : list PyObj)
    (kwargs : gmap string string) : M HttpResponse :=
  profile ← request_user_profile request;
  p ← deref profile;
  if decide (Profile.points p < 50)%Z then
    mret (generic_message request "Can't add organization"
            "You need 50 points to add an organization.")
  else
    organization ← Profile_organization p;
    match organization with
    | Some _ =>
        mret (generic_message request "Can't add organization"
                "You are already in an organization.")
    | None =>
        LoginRequiredMixin_dispatch (λ r, View_dispatch NewOrganization (PRequest r))
          request args kwargs
    end.

(** [EditOrganization.dispatch] *)
Definition EditOrganization_dispatch (request : HttpRequest.t) (args : list PyObj)
    (kwargs : gmap string string) : M HttpResponse :=
  try_except
    (LoginRequiredMixin_dispatch (OrganizationMixin_dispatch EditOrganization)
       request args kwargs)
    PermissionDenied
    (mret (generic_message request "Can't edit organization"
             "You are not in this organization."))
    mret.

(** The endpoint of a view class: [as_view()] calls the first [dispatch] in
    the class's method resolution order. *)
Definition dispatch (self : ViewClass) (request : HttpRequest.t) (args : list PyObj)
    (kwargs : gmap string string) : M HttpResponse :=
  match self with
  | OrganizationList => View_dispatch self (PRequest request) args kwargs
  | OrganizationHome | OrganizationUsers => OrganizationMixin_dispatch self request args kwargs
  | OrganizationMembershipChange | JoinOrganization | LeaveOrganization =>
      LoginRequiredMixin_dispatch (OrganizationMixin_dispatch self) request args kwargs
  | NewOrganization => NewOrganization_dispatch request args kwargs
  | EditOrganization => EditOrganization_dispatch request args kwargs
  end.

(** ** Vocabulary of the statements *)

(** The profile as [JoinOrganization.handle] leaves it. *)
Definition joined (org : Organization.t) (t : Z) (p : Profile.t) : Profile.t :=
  Profile.set_organization_join_time (Some t)
    (Profile.set_organization_id (Some (Organization.id org)) p).

(** The profile as [LeaveOrganization.handle] leaves it. *)
Definition left (p : Profile.t) : Profile.t :=
  Profile.set_organization_join_time None (Profile.set_organization_id None p).

(** The world after a profile object was changed to [p'] and saved, and
    the member-count fragment of [org] was dropped from the cache. *)
Definition membership_changed (org : Organization.t) (profile : loc) (p' : Profile.t)
    (w : World.t) : World.t :=
  let k := make_template_fragment_key "org_member_count" [Organization.id org] in
  World.mk (<[profile := p']> (World.heap w))
           (update_row p' (World.profiles w))
           (World.organizations w)
           (delete k (World.cache w))
           (World.now w)
           (World.effects w ++ [ProfileSave p'; CacheDelete k]).

(** The organization rows a profile is a member of. *)
Definition organizations_of (w : World.t) (p : Profile.t) : list Organization.t :=
  filter (λ o, is_member o p) (World.organizations w).

(** The invariant of the data model: no profile, whichever organization
    its foreign key names, is a member of two organization rows. *)
Definition at_most_one_organization (w : World.t) : Prop :=
  ∀ p : Profile.t, (length (organizations_of w p) ≤ 1)%nat.

(** The same invariant on the organization table alone: primary keys are
    not repeated. *)
Definition unique_ids (w : World.t) : Prop :=
  NoDup (Organization.id <$> World.organizations w).

(** A computation keeps the primary keys unrepeated, however it ends. *)
Definition preserves {A} (c : M A) : Prop :=
  ∀ w, unique_ids w → unique_ids (c w).2.

(** Dense ranking, stated without reference to the order of the items:
    the rank of an item is one more than the number of distinct scores
    strictly above its own. *)
Definition scores (items : list Profile.t) : gset Z :=
  list_to_set (Profile.points <$> items).

Definition dense_rank (items : list Profile.t) (p : Profile.t) : Z :=
  1 + Z.of_nat (size (filter (λ v, Profile.points p < v)%Z (scores items))).

(** While the ranker walks a sequence in descending order, [rank] counts
    the distinct scores seen so far and [last] is the lowest of them. *)
Definition ranker_state (seen : list Profile.t) (rank : Z) (last : option Z) : Prop :=
  rank = Z.of_nat (size (scores seen))
  ∧ match last with
    | None => seen = []
    | Some v => v ∈ scores seen ∧ ∀ q, q ∈ seen → (v ≤ Profile.points q)%Z
    end.

(** * Properties *)

(** ** Running the monad *)

Lemma run_bind {A B} (c : M A) (f : A → M B) w a w' :
  c w = (Returns a, w') → (c ≫= f) w = f a w'.
Proof. intros H. unfold mbind, M_bind. by rewrite H. Qed.

Lemma run_bind_raises {A B} (c : M A) (f : A → M B) w e w' :
  c w = (Raises e, w') → (c ≫= f) w = (Raises e, w').
Proof. intros H. unfold mbind, M_bind. by rewrite H. Qed.

Lemma run_deref profile w p :
  World.heap w !! profile = Some p → deref profile w = (Returns p, w).
Proof. intros H. unfold deref. by rewrite H. Qed.

Lemma run_request_user_profile request profile w :
  HttpRequest.user request = AuthenticatedUser profile →
  request_user_profile request w = (Returns profile, w).
Proof. intros H. unfold request_user_profile. by rewrite H. Qed.

Lemma run_setattr profile f w p :
  World.heap w !! profile = Some p →
  setattr profile f w = (Returns tt, World.set_heap (<[profile := f p]> (World.heap w)) w).
Proof. intros H. unfold setattr. by rewrite (run_bind _ _ _ _ _ (run_deref _ _ _ H)). Qed.

(** The lookup by slug only reads the world. *)
Lemma get_object_reads kwargs w :
  (SingleObjectMixin_get_object kwargs w).2 = w.
Proof.
  unfold SingleObjectMixin_get_object.
  destruct (kwargs !! "key") as [slug|]; [|done].
  unfold mbind, M_bind, gets, try_except, queryset_get; simpl.
  destruct (filter (has_key slug) (World.organizations w)) as [|o [|o' rows]]; done.
Qed.

Lemma get_object_found kwargs w slug org :
  kwargs !! "key" = Some slug →
  filter (has_key slug) (World.organizations w) = [org] →
  SingleObjectMixin_get_object kwargs w = (Returns org, w).
Proof.
  intros Hk Hrows. unfold SingleObjectMixin_get_object. rewrite Hk.
  unfold mbind, M_bind, gets, try_except; simpl. by rewrite Hrows.
Qed.

Lemma get_object_missing kwargs w slug :
  kwargs !! "key" = Some slug →
  filter (has_key slug) (World.organizations w) = [] →
  SingleObjectMixin_get_object kwargs w = (Raises Http404, w).
Proof.
  intros Hk Hrows. unfold SingleObjectMixin_get_object. rewrite Hk.
  unfold mbind, M_bind, gets, try_except; simpl. by rewrite Hrows.
Qed.

Lemma update_row_saved p rows : p ∈ update_row p rows.
Proof.
  induction rows as [|r rows IH]; simpl.
  - apply list_elem_of_here.
  - case_decide; [apply list_elem_of_here | by apply list_elem_of_further].
Qed.

(** ** Joining and leaving *)

Lemma JoinOrganization_handle_joins request org profile w p :
  World.heap w !! profile = Some p →
  Profile.organization_id p = None →
  JoinOrganization_handle request org profile w =
    (Returns None, membership_changed org profile (joined org (World.now w) p) w).
Proof.
  intros Hp Hnone. unfold JoinOrganization_handle.
  rewrite (run_bind _ _ _ _ _ (run_deref _ _ _ Hp)), Hnone.
  rewrite (run_bind _ _ _ _ _ (run_setattr _ _ _ _ Hp)).
  unfold timezone_now, gets, mbind at 1, M_bind; simpl.
  erewrite run_bind; last first.
  { apply run_setattr. simpl. apply lookup_insert_eq. }
  simpl. rewrite insert_insert_eq.
  unfold Profile_save, cache_delete, modify, deref, mbind, M_bind, mret, M_ret; simpl.
  rewrite lookup_insert_eq. unfold membership_changed, World.log, World.set_cache,
    World.set_profiles; simpl.
  by rewrite <- app_assoc.
Qed.

Lemma JoinOrganization_handle_refuses request org profile w p i :
  World.heap w !! profile = Some p →
  Profile.organization_id p = Some i →
  JoinOrganization_handle request org profile w =
    (Returns (Some (GenericMessage "Joining organization"
                      "You are already in an organization.")), w).
Proof.
  intros Hp Hsome. unfold JoinOrganization_handle.
  by rewrite (run_bind _ _ _ _ _ (run_deref _ _ _ Hp)), Hsome.
Qed.

Lemma LeaveOrganization_handle_leaves request org profile w p :
  World.heap w !! profile = Some p →
  Profile.organization_id p = Some (Organization.id org) →
  LeaveOrganization_handle request org profile w =
    (Returns None, membership_changed org profile (left p) w).
Proof.
  intros Hp Hin. unfold LeaveOrganization_handle.
  rewrite (run_bind _ _ _ _ _ (run_deref _ _ _ Hp)).
  rewrite decide_False by (rewrite Hin; intros Hne; by apply Hne).
  rewrite (run_bind _ _ _ _ _ (run_setattr _ _ _ _ Hp)).
  erewrite run_bind; last first.
  { apply run_setattr. simpl. apply lookup_insert_eq. }
  simpl. rewrite insert_insert_eq.
  unfold Profile_save, cache_delete, modify, deref, mbind, M_bind, mret, M_ret; simpl.
  rewrite lookup_insert_eq. unfold membership_changed, World.log, World.set_cache,
    World.set_profiles; simpl.
  by rewrite <- app_assoc.
Qed.

Lemma LeaveOrganization_handle_refuses request org profile w p :
  World.heap w !! profile = Some p →
  Profile.organization_id p ≠ Some (Organization.id org) →
  LeaveOrganization_handle request org profile w =
    (Returns (Some (GenericMessage "Leaving organization"
                      ("You are not in " +:+ dquote +:+ Organization.key org +:+ dquote +:+ "."))),
     w).
Proof.
  intros Hp Hne. unfold LeaveOrganization_handle.
  rewrite (run_bind _ _ _ _ _ (run_deref _ _ _ Hp)).
  by rewrite decide_True by (intros Heq; by apply Hne).
Qed.

(** The GET handler of the two membership views once the organization is
    found and the user has a profile. *)
Lemma OrganizationMembershipChange_get_found self request args kwargs w slug org profile :
  kwargs !! "key" = Some slug →
  filter (has_key slug) (World.organizations w) = [org] →
  HttpRequest.user request = AuthenticatedUser profile →
  OrganizationMembershipChange_get self request args kwargs w =
    match handle self request org profile w with
    | (Returns (Some r), w') => (Returns r, w')
    | (Returns None, w') =>
        (Returns (HttpResponseRedirect (reverse "organization_home" [Organization.key org])), w')
    | (Raises e, w') => (Raises e, w')
    end.
Proof.
  intros Hk Hrows Hu. unfold OrganizationMembershipChange_get, try_except.
  rewrite (get_object_found _ _ _ _ Hk Hrows).
  rewrite (run_bind _ _ _ _ _ (run_request_user_profile _ _ _ Hu)).
  unfold mbind, M_bind.
  destruct (handle self request org profile w) as [[[r|]|e] w']; done.
Qed.

(** X19. Called directly, the GET handler of the join view, for an
    authenticated profile with no organization and an existing
    organization, sets the profile's
    organization to that organization and its join time to the current
    time, saves the profile, deletes the cached [org_member_count]
    fragment key of the organization's id, and redirects to the
    organization's home page. *)
Theorem join_handler_joins_and_redirects request args kwargs w slug org profile p :
  kwargs !! "key" = Some slug →
  filter (has_key slug) (World.organizations w) = [org] →
  HttpRequest.user request = AuthenticatedUser profile →
  World.heap w !! profile = Some p →
  Profile.organization_id p = None →
  let p' := joined org (World.now w) p in
  let w' := membership_changed org profile p' w in
  OrganizationMembershipChange_get JoinOrganization request args kwargs w =
    (Returns (HttpResponseRedirect (reverse "organization_home" [Organization.key org])), w')
  ∧ Profile.organization_id p' = Some (Organization.id org)
  ∧ Profile.organization_join_time p' = Some (World.now w)
  ∧ World.heap w' !! profile = Some p'
  ∧ p' ∈ World.profiles w'
  ∧ World.cache w' !! make_template_fragment_key "org_member_count" [Organization.id org] = None
  ∧ World.effects w' =
      (World.effects w ++
         [ProfileSave p';
          CacheDelete (make_template_fragment_key "org_member_count" [Organization.id org])])%list.
Proof.
  intros Hk Hrows Hu Hp Hnone p' w'. split_and!.
  - rewrite (OrganizationMembershipChange_get_found _ _ _ _ _ _ _ _ Hk Hrows Hu). simpl.
    by rewrite (JoinOrganization_handle_joins _ _ _ _ _ Hp Hnone).
  - done.
  - done.
  - apply lookup_insert_eq.
  - apply update_row_saved.
  - apply lookup_delete_eq.
  - done.
Qed.

(** X20. Called directly, the GET handler of the leave view, for an
    authenticated profile whose organization id equals the target
    organization's id, sets the
    profile's organization and join time to [None], saves the profile,
    deletes the cached [org_member_count] fragment key of the
    organization's id, and redirects to the organization's home page. *)
Theorem leave_handler_leaves_and_redirects request args kwargs w slug org profile p :
  kwargs !! "key" = Some slug →
  filter (has_key slug) (World.organizations w) = [org] →
  HttpRequest.user request = AuthenticatedUser profile →
  World.heap w !! profile = Some p →
  Profile.organization_id p = Some (Organization.id org) →
  let p' := left p in
  let w' := membership_changed org profile p' w in
  OrganizationMembershipChange_get LeaveOrganization request args kwargs w =
    (Returns (HttpResponseRedirect (reverse "organization_home" [Organization.key org])), w')
  ∧ Profile.organization_id p' = None
  ∧ Profile.organization_join_time p' = None
  ∧ World.heap w' !! profile = Some p'
  ∧ p' ∈ World.profiles w'
  ∧ World.cache w' !! make_template_fragment_key "org_member_count" [Organization.id org] = None
  ∧ World.effects w' =
      (World.effects w ++
         [ProfileSave p';
          CacheDelete (make_template_fragment_key "org_member_count" [Organization.id org])])%list.
Proof.
  intros Hk Hrows Hu Hp Hin p' w'. split_and!.
  - rewrite (OrganizationMembershipChange_get_found _ _ _ _ _ _ _ _ Hk Hrows Hu). simpl.
    by rewrite (LeaveOrganization_handle_leaves _ _ _ _ _ Hp Hin).
  - done.
  - done.
  - apply lookup_insert_eq.
  - apply update_row_saved.
  - apply lookup_delete_eq.
  - done.
Qed.

(** X21. Called directly, the GET handler of the membership views, when
    the precondition of the change fails (a join while the profile already
    has an organization, a leave while the profile's organization id
    differs from the target's), returns the corresponding message page
    and leaves the world exactly as before: the
    profile object and its row are unchanged, nothing is saved and no
    cache key is deleted. *)
Theorem refused_handler_changes_nothing request args kwargs w slug org profile p :
  kwargs !! "key" = Some slug →
  filter (has_key slug) (World.organizations w) = [org] →
  HttpRequest.user request = AuthenticatedUser profile →
  World.heap w !! profile = Some p →
  (Profile.organization_id p ≠ None →
   OrganizationMembershipChange_get JoinOrganization request args kwargs w =
     (Returns (GenericMessage "Joining organization" "You are already in an organization."), w))
  ∧ (Profile.organization_id p ≠ Some (Organization.id org) →
     OrganizationMembershipChange_get LeaveOrganization request args kwargs w =
       (Returns (GenericMessage "Leaving organization"
                   ("You are not in " +:+ dquote +:+ Organization.key org +:+ dquote +:+ ".")),
        w)).
Proof.
  intros Hk Hrows Hu Hp. split; intros Hpre.
  - destruct (Profile.organization_id p) as [i|] eqn:Hi; [|done].
    rewrite (OrganizationMembershipChange_get_found _ _ _ _ _ _ _ _ Hk Hrows Hu). simpl.
    by rewrite (JoinOrganization_handle_refuses _ _ _ _ _ _ Hp Hi).
  - rewrite (OrganizationMembershipChange_get_found _ _ _ _ _ _ _ _ Hk Hrows Hu). simpl.
    by rewrite (LeaveOrganization_handle_refuses _ _ _ _ _ Hp Hpre).
Qed.

(** ** Join and leave requests at their endpoints *)

(** C1. What a join request gets, for an authenticated profile with no
    organization and an existing organization: the endpoint raises
    [AttributeError] in [OrganizationMixin.dispatch] and leaves the world
    as it was, so the profile is not joined, nothing is saved, no cache
    key is deleted and there is no redirect. The GET handler behind the
    endpoint, which would do all of that, is never reached. *)
Theorem join_request_raises_before_joining request args kwargs w slug org profile p :
  kwargs !! "key" = Some slug →
  filter (has_key slug) (World.organizations w) = [org] →
  HttpRequest.user request = AuthenticatedUser profile →
  World.heap w !! profile = Some p →
  Profile.organization_id p = None →
  dispatch JoinOrganization request args kwargs w = (Raises AttributeError, w)
  ∧ OrganizationMembershipChange_get JoinOrganization request args kwargs w =
      (Returns (HttpResponseRedirect (reverse "organization_home" [Organization.key org])),
       membership_changed org profile (joined org (World.now w) p) w).
Proof.
  intros Hk Hrows Hu Hp Hnone. split.
  - unfold dispatch, LoginRequiredMixin_dispatch. by rewrite Hu.
  - rewrite (OrganizationMembershipChange_get_found _ _ _ _ _ _ _ _ Hk Hrows Hu). simpl.
    by rewrite (JoinOrganization_handle_joins _ _ _ _ _ Hp Hnone).
Qed.

(** C2. What a leave request gets, for an authenticated profile whose
    organization id equals the target organization's id: the endpoint
    raises [AttributeError] in [OrganizationMixin.dispatch] and leaves the
    world as it was, so the profile stays in the organization, nothing is
    saved, no cache key is deleted and there is no redirect. The GET
    handler behind the endpoint, which would do all of that, is never
    reached. *)
Theorem leave_request_raises_before_leaving request args kwargs w slug org profile p :
  kwargs !! "key" = Some slug →
  filter (has_key slug) (World.organizations w) = [org] →
  HttpRequest.user request = AuthenticatedUser profile →
  World.heap w !! profile = Some p →
  Profile.organization_id p = Some (Organization.id org) →
  dispatch LeaveOrganization request args kwargs w = (Raises AttributeError, w)
  ∧ OrganizationMembershipChange_get LeaveOrganization request args kwargs w =
      (Returns (HttpResponseRedirect (reverse "organization_home" [Organization.key org])),
       membership_changed org profile (left p) w).
Proof.
  intros Hk Hrows Hu Hp Hin. split.
  - unfold dispatch, LoginRequiredMixin_dispatch. by rewrite Hu.
  - rewrite (OrganizationMembershipChange_get_found _ _ _ _ _ _ _ _ Hk Hrows Hu). simpl.
    by rewrite (LeaveOrganization_handle_leaves _ _ _ _ _ Hp Hin).
Qed.

(** C3. What a membership request whose precondition fails gets (a join
    while the profile already has an organization, a leave while the
    profile's organization id differs from the target's): the endpoint
    leaves the world as it was, as the claim says, but it raises
    [AttributeError] in [OrganizationMixin.dispatch] where the claim has
    the message page; the GET handler behind the endpoint, which returns
    that page, is never reached. *)
Theorem refused_membership_request_raises request args kwargs w slug org profile p :
  kwargs !! "key" = Some slug →
  filter (has_key slug) (World.organizations w) = [org] →
  HttpRequest.user request = AuthenticatedUser profile →
  World.heap w !! profile = Some p →
  (Profile.organization_id p ≠ None →
   dispatch JoinOrganization request args kwargs w = (Raises AttributeError, w)
   ∧ OrganizationMembershipChange_get JoinOrganization request args kwargs w =
       (Returns (GenericMessage "Joining organization" "You are already in an organization."),
        w))
  ∧ (Profile.organization_id p ≠ Some (Organization.id org) →
     dispatch LeaveOrganization request args kwargs w = (Raises AttributeError, w)
     ∧ OrganizationMembershipChange_get LeaveOrganization request args kwargs w =
         (Returns (GenericMessage "Leaving organization"
                     ("You are not in " +:+ dquote +:+ Organization.key org +:+ dquote +:+ ".")),
          w)).
Proof.
  intros Hk Hrows Hu Hp.
  assert (∀ self, self = JoinOrganization ∨ self = LeaveOrganization →
                  dispatch self request args kwargs w = (Raises AttributeError, w)) as Hraises.
  { intros self [-> | ->]; unfold dispatch, LoginRequiredMixin_dispatch; by rewrite Hu. }
  split; intros Hpre; (split; [apply Hraises; auto|]).
  - destruct (Profile.organization_id p) as [i|] eqn:Hi; [|done].
    rewrite (OrganizationMembershipChange_get_found _ _ _ _ _ _ _ _ Hk Hrows Hu). simpl.
    by rewrite (JoinOrganization_handle_refuses _ _ _ _ _ _ Hp Hi).
  - rewrite (OrganizationMembershipChange_get_found _ _ _ _ _ _ _ _ Hk Hrows Hu). simpl.
    by rewrite (LeaveOrganization_handle_refuses _ _ _ _ _ Hp Hpre).
Qed.

(** ** Missing organizations and the dispatch chain *)

(** The GET handler of the membership views answers a missing key itself. *)
Lemma OrganizationMembershipChange_get_not_found self request args kwargs w slug :
  kwargs !! "key" = Some slug →
  filter (has_key slug) (World.organizations w) = [] →
  OrganizationMembershipChange_get self request args kwargs w =
    (Returns (organization_not_found request (Some slug)), w).
Proof.
  intros Hk Hrows. unfold OrganizationMembershipChange_get, try_except.
  by rewrite (get_object_missing _ _ _ Hk Hrows), Hk.
Qed.

(** The GET handler of the detail views raises [Http404] for a missing key,
    and relies on [OrganizationMixin.dispatch] to answer it. *)
Lemma DetailView_get_not_found self request args kwargs w slug :
  kwargs !! "key" = Some slug →
  filter (has_key slug) (World.organizations w) = [] →
  DetailView_get self request args kwargs w = (Raises Http404, w).
Proof.
  intros Hk Hrows. unfold DetailView_get.
  by rewrite (run_bind_raises _ _ _ _ _ (get_object_missing _ _ _ Hk Hrows)).
Qed.

(** [View.dispatch] never gets as far as a handler when it is handed a
    view where the request belongs. *)
Lemma OrganizationMixin_dispatch_raises self request args kwargs w :
  OrganizationMixin_dispatch self request args kwargs w = (Raises AttributeError, w).
Proof. reflexivity. Qed.

(** C5. What the four endpoints of an organization key do, whether or not
    the key names an organization: [OrganizationMixin.dispatch] hands the
    view itself to [View.dispatch] as the request, the read of
    [request.method] raises [AttributeError], and the [except Http404]
    clause lets it through. No endpoint returns the "No such
    organization" page. *)
Theorem organization_endpoints_raise_AttributeError request args kwargs w :
  dispatch OrganizationHome request args kwargs w = (Raises AttributeError, w)
  ∧ dispatch OrganizationUsers request args kwargs w = (Raises AttributeError, w)
  ∧ dispatch JoinOrganization request args kwargs w =
      match HttpRequest.user request with
      | AnonymousUser => (Returns (HttpResponseRedirect login_url), w)
      | AuthenticatedUser _ => (Raises AttributeError, w)
      end
  ∧ dispatch LeaveOrganization request args kwargs w =
      match HttpRequest.user request with
      | AnonymousUser => (Returns (HttpResponseRedirect login_url), w)
      | AuthenticatedUser _ => (Raises AttributeError, w)
      end.
Proof.
  split_and!; try reflexivity;
    unfold dispatch, LoginRequiredMixin_dispatch;
    destruct (HttpRequest.user request); reflexivity.
Qed.

(** ** Editing *)

Lemma EditOrganization_get_object_denies request kwargs w slug org profile p :
  kwargs !! "key" = Some slug →
  filter (has_key slug) (World.organizations w) = [org] →
  HttpRequest.user request = AuthenticatedUser profile →
  World.heap w !! profile = Some p →
  Profile.organization_id p ≠ Some (Organization.id org) →
  EditOrganization_get_object request kwargs w = (Raises PermissionDenied, w).
Proof.
  intros Hk Hrows Hu Hp Hne. unfold EditOrganization_get_object.
  rewrite (run_bind _ _ _ _ _ (get_object_found _ _ _ _ Hk Hrows)).
  rewrite (run_bind _ _ _ _ _ (run_request_user_profile _ _ _ Hu)).
  rewrite (run_bind _ _ _ _ _ (run_deref _ _ _ Hp)).
  by rewrite decide_True by (intros Heq; by apply Hne).
Qed.

(** The handlers behind the edit endpoint raise [PermissionDenied] for a
    profile outside the organization, and change nothing. *)
Lemma edit_handlers_deny request args kwargs w slug org profile p :
  kwargs !! "key" = Some slug →
  filter (has_key slug) (World.organizations w) = [org] →
  HttpRequest.user request = AuthenticatedUser profile →
  World.heap w !! profile = Some p →
  Profile.organization_id p ≠ Some (Organization.id org) →
  UpdateView_get EditOrganization request args kwargs w = (Raises PermissionDenied, w)
  ∧ UpdateView_post EditOrganization request args kwargs w = (Raises PermissionDenied, w).
Proof.
  intros Hk Hrows Hu Hp Hne.
  pose proof (EditOrganization_get_object_denies _ _ _ _ _ _ _ Hk Hrows Hu Hp Hne) as H.
  split; [unfold UpdateView_get | unfold UpdateView_post];
    by rewrite (run_bind_raises _ _ _ _ _ H).
Qed.

(** C8. What the edit endpoint does: an anonymous user is sent to the
    login page, and for every authenticated user, member or not, the
    dispatch chain goes through [OrganizationMixin.dispatch], which raises
    [AttributeError]; [EditOrganization.dispatch] catches only
    [PermissionDenied], so the error is propagated instead of the message
    "You are not in this organization.". The world, and with it the
    organization's name and about, is unchanged. *)
Theorem edit_endpoint_raises_AttributeError request args kwargs w :
  dispatch EditOrganization request args kwargs w =
    match HttpRequest.user request with
    | AnonymousUser => (Returns (HttpResponseRedirect login_url), w)
    | AuthenticatedUser _ => (Raises AttributeError, w)
    end.
Proof.
  unfold dispatch, EditOrganization_dispatch, try_except, LoginRequiredMixin_dispatch.
  destruct (HttpRequest.user request); reflexivity.
Qed.

Lemma fresh_id_above rows o : o ∈ rows → Organization.id o < fresh_id rows.
Proof.
  unfold fresh_id. induction rows as [|r rows IH]; intros Hin.
  - by apply elem_of_nil in Hin.
  - rewrite fmap_cons. simpl foldr.
    apply elem_of_cons in Hin as [->|Hin]; [lia|].
    specialize (IH Hin). lia.
Qed.

Lemma update_organization_other o i rows :
  Organization.id o ≠ i →
  filter (has_id i) (update_organization o rows) = filter (has_id i) rows.
Proof.
  intros Hne. induction rows as [|r rows IH]; simpl.
  - by rewrite filter_cons_False.
  - case_decide as Hid.
    + rewrite !filter_cons.
      rewrite (decide_False (P := has_id i o)) by done.
      by rewrite (decide_False (P := has_id i r)) by (unfold has_id; congruence).
    + rewrite !filter_cons. by rewrite IH.
Qed.

(** C7. What editing does for a member of the organization being edited:
    [EditOrganization.get_object] passes the membership check and then
    returns [None], not the organization, so a posted form is not bound
    to the organization, whose row stays as it was; and the endpoint
    itself raises [AttributeError] before any handler runs. *)
Theorem edit_by_member_does_not_reach_the_organization request args kwargs w slug org profile p :
  kwargs !! "key" = Some slug →
  filter (has_key slug) (World.organizations w) = [org] →
  HttpRequest.user request = AuthenticatedUser profile →
  World.heap w !! profile = Some p →
  Profile.organization_id p = Some (Organization.id org) →
  EditOrganization_get_object request kwargs w = (Returns None, w)
  ∧ filter (has_id (Organization.id org))
      (World.organizations (UpdateView_post EditOrganization request args kwargs w).2) =
    filter (has_id (Organization.id org)) (World.organizations w)
  ∧ dispatch EditOrganization request args kwargs w = (Raises AttributeError, w).
Proof.
  intros Hk Hrows Hu Hp Hin.
  assert (EditOrganization_get_object request kwargs w = (Returns None, w)) as Hget.
  { unfold EditOrganization_get_object.
    rewrite (run_bind _ _ _ _ _ (get_object_found _ _ _ _ Hk Hrows)).
    rewrite (run_bind _ _ _ _ _ (run_request_user_profile _ _ _ Hu)).
    rewrite (run_bind _ _ _ _ _ (run_deref _ _ _ Hp)).
    by rewrite decide_False by (intros Hne; by apply Hne). }
  split_and!; [done| |].
  2: { unfold dispatch, EditOrganization_dispatch, try_except, LoginRequiredMixin_dispatch.
       by rewrite Hu. }
  unfold UpdateView_post. rewrite (run_bind _ _ _ _ _ Hget).
  destruct (clean_fields _ _) as [[|name [|about [|? ?]]]|]; try done.
  unfold mbind, M_bind, gets, Organization_save, modify; simpl.
  apply update_organization_other; simpl.
  assert (org ∈ World.organizations w) as Horg.
  { eapply (list_elem_of_filter (has_key slug)). rewrite Hrows. apply list_elem_of_here. }
  apply fresh_id_above in Horg. lia.
Qed.

(** ** Creating *)

Lemma run_Profile_organization p w i o :
  Profile.organization_id p = Some i →
  filter (has_id i) (World.organizations w) = [o] →
  Profile_organization p w = (Returns (Some o), w).
Proof.
  intros Hi Hrows. unfold Profile_organization. rewrite Hi.
  unfold mbind, M_bind, gets; simpl. by rewrite Hrows.
Qed.

Lemma NewOrganization_dispatch_points request args kwargs w profile p :
  HttpRequest.user request = AuthenticatedUser profile →
  World.heap w !! profile = Some p →
  Profile.points p < 50 →
  NewOrganization_dispatch request args kwargs w =
    (Returns (GenericMessage "Can't add organization"
                "You need 50 points to add an organization."), w).
Proof.
  intros Hu Hp Hlt. unfold NewOrganization_dispatch.
  rewrite (run_bind _ _ _ _ _ (run_request_user_profile _ _ _ Hu)).
  rewrite (run_bind _ _ _ _ _ (run_deref _ _ _ Hp)).
  by rewrite decide_True.
Qed.

(** C6. A request to the creation endpoint by an authenticated profile
    with fewer than 50 points returns the message "You need 50 points to
    add an organization." and leaves the world, hence the organization
    table, as it was; a request by a profile that already belongs to an
    organization is rejected in the same way, with the message "You are
    already in an organization." whenever the points check lets it
    through. *)
Theorem creation_is_gated request args kwargs w profile p :
  HttpRequest.user request = AuthenticatedUser profile →
  World.heap w !! profile = Some p →
  (Profile.points p < 50 →
   dispatch NewOrganization request args kwargs w =
     (Returns (GenericMessage "Can't add organization"
                 "You need 50 points to add an organization."), w))
  ∧ (∀ i o,
       Profile.organization_id p = Some i →
       filter (has_id i) (World.organizations w) = [o] →
       dispatch NewOrganization request args kwargs w =
         (Returns (GenericMessage "Can't add organization"
                     (if decide (Profile.points p < 50)
                      then "You need 50 points to add an organization."
                      else "You are already in an organization.")), w)).
Proof.
  intros Hu Hp. split.
  - intros Hlt. by apply (NewOrganization_dispatch_points _ _ _ _ profile p).
  - intros i o Hi Hrows. case_decide as Hlt.
    + by apply (NewOrganization_dispatch_points _ _ _ _ profile p).
    + unfold dispatch, NewOrganization_dispatch.
      rewrite (run_bind _ _ _ _ _ (run_request_user_profile _ _ _ Hu)).
      rewrite (run_bind _ _ _ _ _ (run_deref _ _ _ Hp)).
      rewrite decide_False by done.
      by rewrite (run_bind _ _ _ _ _ (run_Profile_organization _ _ _ _ Hi Hrows)).
Qed.

(** C10. When an authenticated profile has fewer than 50 points and also
    belongs to an organization, the creation endpoint answers with the
    insufficient-points message, not the already-in-an-organization one:
    the points check comes first. *)
Theorem points_check_precedes_membership_check request args kwargs w profile p i :
  HttpRequest.user request = AuthenticatedUser profile →
  World.heap w !! profile = Some p →
  Profile.points p < 50 →
  Profile.organization_id p = Some i →
  dispatch NewOrganization request args kwargs w =
    (Returns (GenericMessage "Can't add organization"
                "You need 50 points to add an organization."), w)
  ∧ (dispatch NewOrganization request args kwargs w).1 ≠
      Returns (GenericMessage "Can't add organization" "You are already in an organization.").
Proof.
  intros Hu Hp Hlt Hi.
  pose proof (NewOrganization_dispatch_points request args kwargs w profile p Hu Hp Hlt) as H.
  unfold dispatch. rewrite H. split; [done | discriminate].
Qed.

(** ** One organization per profile *)

Lemma filter_has_id_absent i (rows : list Organization.t) :
  i ∉ Organization.id <$> rows → filter (has_id i) rows = [].
Proof.
  induction rows as [|r rows IH]; [done|].
  rewrite fmap_cons, not_elem_of_cons. intros [Hne Hnin].
  rewrite filter_cons_False by (unfold has_id; congruence). by apply IH.
Qed.

Lemma filter_has_id_present i (rows : list Organization.t) :
  i ∈ Organization.id <$> rows → (1 ≤ length (filter (has_id i) rows))%nat.
Proof.
  induction rows as [|r rows IH]; rewrite ?fmap_cons.
  - intros Hin. by apply elem_of_nil in Hin.
  - intros Hin. rewrite filter_cons. case_decide as Hid; simpl; [lia|].
    apply elem_of_cons in Hin as [Heq|Hin]; [|by apply IH].
    exfalso. apply Hid. by unfold has_id.
Qed.

Lemma NoDup_ids_count (rows : list Organization.t) :
  NoDup (Organization.id <$> rows) ↔ ∀ i, (length (filter (has_id i) rows) ≤ 1)%nat.
Proof.
  induction rows as [|r rows IH].
  - split; [intros _ i; simpl; lia | intros _; constructor].
  - rewrite fmap_cons, NoDup_cons, IH. split.
    + intros [Hnin Hcount] i. rewrite filter_cons. case_decide as Hid; [|done].
      unfold has_id in Hid. subst i. rewrite filter_has_id_absent by done. simpl; lia.
    + intros Hcount. split.
      * intros Hin. apply filter_has_id_present in Hin.
        specialize (Hcount (Organization.id r)).
        rewrite filter_cons_True in Hcount by done. simpl in Hcount. lia.
      * intros i. specialize (Hcount i). rewrite filter_cons in Hcount.
        case_decide; simpl in Hcount; lia.
Qed.

Lemma organizations_of_has_id w p :
  organizations_of w p =
    match Profile.organization_id p with
    | Some i => filter (has_id i) (World.organizations w)
    | None => []
    end.
Proof.
  unfold organizations_of. destruct (Profile.organization_id p) as [i|] eqn:Hi.
  - apply list_filter_iff. intros o. unfold is_member, has_id. rewrite Hi. naive_solver.
  - induction (World.organizations w) as [|r rows IH]; [done|].
    rewrite filter_cons_False; [done|]. unfold is_member. by rewrite Hi.
Qed.

Lemma at_most_one_unique_ids w : at_most_one_organization w ↔ unique_ids w.
Proof.
  unfold at_most_one_organization, unique_ids. rewrite NoDup_ids_count. split.
  - intros H i.
    specialize (H (Profile.mk 0 (AuthUser.mk "" false) 0 (Some i) None)).
    by rewrite organizations_of_has_id in H.
  - intros H p. rewrite organizations_of_has_id.
    destruct (Profile.organization_id p); [apply H | simpl; lia].
Qed.

Lemma update_organization_ids o rows i :
  i ∈ Organization.id <$> update_organization o rows →
  i = Organization.id o ∨ i ∈ Organization.id <$> rows.
Proof.
  induction rows as [|r rows IH]; cbn [update_organization].
  - rewrite list_fmap_singleton, list_elem_of_singleton. by left.
  - case_decide as Hid; rewrite !fmap_cons, !elem_of_cons.
    + intros [->|Hin]; [by left | by right; right].
    + intros [->|Hin]; [by right; left|]. destruct (IH Hin); [by left | by right; right].
Qed.

Lemma update_organization_NoDup o rows :
  NoDup (Organization.id <$> rows) →
  NoDup (Organization.id <$> update_organization o rows).
Proof.
  induction rows as [|r rows IH]; cbn [update_organization].
  - intros _. rewrite list_fmap_singleton. apply NoDup_singleton.
  - rewrite fmap_cons, NoDup_cons. intros [Hnin Hnd].
    case_decide as Hid; rewrite fmap_cons, NoDup_cons.
    + by rewrite <- Hid.
    + split; [|by apply IH].
      intros Hin. apply update_organization_ids in Hin as [Heq|Hin]; [by apply Hid | done].
Qed.

(** *** Preservation, computation by computation *)

Lemma preserves_ret {A} (a : A) : preserves (mret a).
Proof. by intros w H. Qed.

Lemma preserves_raise {A} e : preserves (@raise A e).
Proof. by intros w H. Qed.

Lemma preserves_gets {A} (f : World.t → A) : preserves (gets f).
Proof. by intros w H. Qed.

Lemma preserves_bind {A B} (c : M A) (f : A → M B) :
  preserves c → (∀ a, preserves (f a)) → preserves (c ≫= f).
Proof.
  intros Hc Hf w H. unfold mbind, M_bind. specialize (Hc w H).
  destruct (c w) as [[a|e] w']; [by apply Hf | done].
Qed.

Lemma preserves_try_except {A B} (c : M A) e (h : M B) (k : A → M B) :
  preserves c → preserves h → (∀ a, preserves (k a)) → preserves (try_except c e h k).
Proof.
  intros Hc Hh Hk w H. unfold try_except. specialize (Hc w H).
  destruct (c w) as [[a|e'] w']; [by apply Hk|].
  case_decide; [by apply Hh | done].
Qed.

Lemma preserves_modify (f : World.t → World.t) :
  (∀ w, World.organizations (f w) = World.organizations w) → preserves (modify f).
Proof. intros Hf w H. unfold unique_ids, modify; simpl. by rewrite Hf. Qed.

Lemma preserves_deref profile : preserves (deref profile).
Proof. intros w H. unfold deref. by destruct (World.heap w !! profile). Qed.

Lemma preserves_Organization_save o : preserves (Organization_save o).
Proof. intros w H. by apply update_organization_NoDup. Qed.

Lemma preserves_queryset_get rows : preserves (queryset_get rows).
Proof. by destruct rows as [|o [|o' rows]]; intros w H. Qed.

Create HintDb preserves discriminated.

#[local] Hint Resolve preserves_ret preserves_raise preserves_gets preserves_deref
  preserves_Organization_save preserves_queryset_get : preserves.

(** Walks down a handler: splits every bind and try, and takes every
    branch of a match or a conditional. *)
Ltac preserve :=
  repeat first
    [ progress eauto with preserves
    | apply preserves_bind; [|intros ?]
    | apply preserves_try_except; [| |intros ?]
    | apply preserves_modify; by intros ?
    | match goal with
      | |- preserves (match ?x with _ => _ end) => destruct x
      end ].

Lemma preserves_setattr profile f : preserves (setattr profile f).
Proof. unfold setattr. preserve. Qed.

Lemma preserves_Profile_save profile : preserves (Profile_save profile).
Proof. unfold Profile_save. preserve. Qed.

Lemma preserves_cache_delete k : preserves (cache_delete k).
Proof. unfold cache_delete. preserve. Qed.

Lemma preserves_request_user_profile request : preserves (request_user_profile request).
Proof. unfold request_user_profile. preserve. Qed.

Lemma preserves_get_object kwargs : preserves (SingleObjectMixin_get_object kwargs).
Proof. unfold SingleObjectMixin_get_object. preserve. Qed.

#[local] Hint Resolve preserves_setattr preserves_Profile_save preserves_cache_delete
  preserves_request_user_profile preserves_get_object : preserves.

Lemma preserves_handle self request org profile : preserves (handle self request org profile).
Proof.
  destruct self; simpl; try apply preserves_raise;
    unfold JoinOrganization_handle, LeaveOrganization_handle, timezone_now; preserve.
Qed.

Lemma preserves_EditOrganization_get_object request kwargs :
  preserves (EditOrganization_get_object request kwargs).
Proof. unfold EditOrganization_get_object. preserve. Qed.

#[local] Hint Resolve preserves_handle preserves_EditOrganization_get_object : preserves.

Lemma preserves_handler self method h request args kwargs :
  handler self method = Some h → preserves (h request args kwargs).
Proof.
  intros Hh. destruct self, method; simpl in Hh; simplify_eq;
    unfold ListView_get, DetailView_get, OrganizationMembershipChange_get,
      CreateView_get, CreateView_post, UpdateView_get, UpdateView_post,
      OrganizationUsers_get_context_data, OrganizationHome_get_context_data,
      NewOrganization_form_valid;
    preserve.
Qed.

Lemma preserves_View_dispatch self request args kwargs :
  preserves (View_dispatch self request args kwargs).
Proof.
  unfold View_dispatch. destruct request as [r|v]; [|apply preserves_raise].
  destruct (handler self (HttpRequest.method r)) as [h|] eqn:Hh; [|apply preserves_ret].
  by eapply preserves_handler.
Qed.

#[local] Hint Resolve preserves_View_dispatch : preserves.

Lemma preserves_dispatch self request args kwargs :
  preserves (dispatch self request args kwargs).
Proof.
  destruct self; unfold dispatch;
    unfold NewOrganization_dispatch, EditOrganization_dispatch, Profile_organization,
      LoginRequiredMixin_dispatch, OrganizationMixin_dispatch;
    preserve.
Qed.

Lemma JoinOrganization_handle_permitted request org profile w w' :
  JoinOrganization_handle request org profile w = (Returns None, w') →
  ∃ p, World.heap w !! profile = Some p ∧ Profile.organization_id p = None.
Proof.
  unfold JoinOrganization_handle, mbind at 1, M_bind, deref.
  destruct (World.heap w !! profile) as [p|]; [|done].
  destruct (Profile.organization_id p) as [i|] eqn:Hi; [done|]. by exists p.
Qed.

Lemma LeaveOrganization_handle_permitted request org profile w w' :
  LeaveOrganization_handle request org profile w = (Returns None, w') →
  ∃ p, World.heap w !! profile = Some p
       ∧ Profile.organization_id p = Some (Organization.id org).
Proof.
  unfold LeaveOrganization_handle, mbind at 1, M_bind, deref.
  destruct (World.heap w !! profile) as [p|]; [|done].
  case_decide as Hne; [done|]. intros _. exists p. split; [done|].
  by destruct (decide (Some (Organization.id org) = Profile.organization_id p)).
Qed.

Lemma NewOrganization_dispatch_permitted request args kwargs w profile p :
  HttpRequest.user request = AuthenticatedUser profile →
  World.heap w !! profile = Some p →
  World.organizations (NewOrganization_dispatch request args kwargs w).2
    ≠ World.organizations w →
  Profile.organization_id p = None ∧ (50 ≤ Profile.points p)%Z.
Proof.
  intros Hu Hp. unfold NewOrganization_dispatch.
  rewrite (run_bind _ _ _ _ _ (run_request_user_profile _ _ _ Hu)).
  rewrite (run_bind _ _ _ _ _ (run_deref _ _ _ Hp)).
  case_decide as Hlt; [done|]. unfold Profile_organization.
  destruct (Profile.organization_id p) as [i|]; [|intros _; split; [done | lia]].
  unfold mbind, M_bind, gets, queryset_get; simpl.
  by destruct (filter (has_id i) (World.organizations w)) as [|o [|o' rows]].
Qed.

(** C4. Every operation of the module keeps the invariant that a profile
    belongs to at most one organization, whether it is run through its
    endpoint or through its handler; a join goes ahead only for a profile
    with no organization, a leave only for a profile whose organization is
    the one being left, and a creation request changes the organization
    table only for a profile with no organization. *)
Theorem one_organization_per_profile self request args kwargs w :
  at_most_one_organization w →
  at_most_one_organization (dispatch self request args kwargs w).2
  ∧ (∀ method h, handler self method = Some h →
       at_most_one_organization (h request args kwargs w).2)
  ∧ (∀ org profile w',
       JoinOrganization_handle request org profile w = (Returns None, w') →
       at_most_one_organization w'
       ∧ ∃ p, World.heap w !! profile = Some p ∧ Profile.organization_id p = None)
  ∧ (∀ org profile w',
       LeaveOrganization_handle request org profile w = (Returns None, w') →
       at_most_one_organization w'
       ∧ ∃ p, World.heap w !! profile = Some p
              ∧ Profile.organization_id p = Some (Organization.id org))
  ∧ (∀ profile p,
       HttpRequest.user request = AuthenticatedUser profile →
       World.heap w !! profile = Some p →
       World.organizations (dispatch NewOrganization request args kwargs w).2
         ≠ World.organizations w →
       Profile.organization_id p = None).
Proof.
  intros Hinv. apply at_most_one_unique_ids in Hinv. split_and!.
  - apply at_most_one_unique_ids. by apply preserves_dispatch.
  - intros method h Hh. apply at_most_one_unique_ids. by eapply preserves_handler.
  - intros org profile w' Hrun. split; [|by eapply JoinOrganization_handle_permitted].
    apply at_most_one_unique_ids.
    pose proof (preserves_handle JoinOrganization request org profile w Hinv) as H.
    simpl in H. by rewrite Hrun in H.
  - intros org profile w' Hrun. split; [|by eapply LeaveOrganization_handle_permitted].
    apply at_most_one_unique_ids.
    pose proof (preserves_handle LeaveOrganization request org profile w Hinv) as H.
    simpl in H. by rewrite Hrun in H.
  - intros profile p Hu Hp Hchanged.
    by destruct (NewOrganization_dispatch_permitted _ _ _ _ _ _ Hu Hp Hchanged).
Qed.

(** ** The member roster *)

Local Instance points_desc_transitive : Transitive points_desc.
Proof. unfold points_desc. intros p q r Hpq Hqr. lia. Qed.

Local Instance points_desc_total : Total points_desc.
Proof. unfold points_desc. intros p q. lia. Qed.

Lemma roster_Permutation org rows :
  roster org rows ≡ₚ filter ranked_user (filter (is_member org) rows).
Proof. apply merge_sort_Permutation. Qed.

Lemma roster_sorted org rows : StronglySorted points_desc (roster org rows).
Proof. apply StronglySorted_merge_sort; apply _. Qed.

(** The ranker attaches a number to every item and keeps the items and
    their order. *)
Lemma ranker_from_items rank last items : (ranker_from rank last items).*2 = items.
Proof.
  revert rank last. induction items as [|item items IH]; intros rank last; [done|].
  cbn [ranker_from]. rewrite fmap_cons. simpl. by rewrite IH.
Qed.

Lemma elem_of_scores v items : v ∈ scores items ↔ ∃ q, q ∈ items ∧ Profile.points q = v.
Proof.
  unfold scores. rewrite elem_of_list_to_set, list_elem_of_fmap. naive_solver.
Qed.

Lemma ranker_state_step seen item items rank last :
  StronglySorted points_desc (seen ++ item :: items) →
  ranker_state seen rank last →
  let rank' := if decide (last = Some (Profile.points item)) then rank else (rank + 1)%Z in
  ranker_state (seen ++ [item]) rank' (Some (Profile.points item))
  ∧ rank' = dense_rank (seen ++ item :: items) item.
Proof.
  intros Hsorted [Hrank Hlast] rank'.
  assert (∀ q, q ∈ seen → (Profile.points item ≤ Profile.points q)%Z) as Habove.
  { intros q Hq. apply (StronglySorted_app_1_elem_of _ _ _ q item Hsorted Hq).
    apply list_elem_of_here. }
  assert (∀ q, q ∈ items → (Profile.points q ≤ Profile.points item)%Z) as Hbelow.
  { apply StronglySorted_app_1_r, StronglySorted_cons in Hsorted as [Hall _].
    intros q Hq. by apply (proj1 (Forall_forall _ _) Hall q). }
  assert (scores (seen ++ [item]) = scores seen ∪ {[Profile.points item]}) as Hsnoc.
  { unfold scores. rewrite fmap_app, list_to_set_app_L. simpl.
    by rewrite (right_id_L ∅ (∪)). }
  assert (rank' = Z.of_nat (size (scores (seen ++ [item])))) as Hrank'.
  { rewrite Hsnoc. subst rank'. case_decide as Hsame.
    - subst last. destruct Hlast as [Hin _].
      replace (scores seen ∪ {[Profile.points item]}) with (scores seen) by set_solver.
      done.
    - rewrite size_union, size_singleton; [lia|].
      apply disjoint_singleton_r. intros Hin.
      apply elem_of_scores in Hin as (q & Hq & Hpoints).
      destruct last as [v|]; [|subst seen; by apply elem_of_nil in Hq].
      destruct Hlast as [Hv Hmin]. apply Hsame. f_equal.
      apply elem_of_scores in Hv as (q' & Hq' & <-).
      specialize (Hmin q Hq). specialize (Habove q' Hq'). lia. }
  split; [split; [done|]|].
  - split.
    + rewrite Hsnoc. set_solver.
    + intros q Hq. apply elem_of_app in Hq as [Hq|Hq]; [by apply Habove|].
      apply list_elem_of_singleton in Hq as ->. lia.
  - rewrite Hrank'. unfold dense_rank.
    replace (filter (λ v, (Profile.points item < v)%Z) (scores (seen ++ item :: items)))
      with (scores (seen ++ [item]) ∖ {[Profile.points item]}).
    + rewrite size_difference, size_singleton by (rewrite Hsnoc; set_solver).
      assert (size (scores (seen ++ [item])) ≠ 0%nat); [|lia].
      rewrite Hsnoc. intros Hempty. apply size_empty_inv in Hempty. set_solver.
    + apply set_eq. intros v.
      rewrite elem_of_difference, elem_of_filter, !elem_of_scores, not_elem_of_singleton.
      split.
      * intros [(q & Hq & <-) Hne]. apply elem_of_app in Hq as [Hq|Hq].
        -- specialize (Habove q Hq). split; [lia|]. exists q. split; [|done].
           apply elem_of_app. by left.
        -- apply list_elem_of_singleton in Hq as ->. done.
      * intros [Hlt (q & Hq & <-)]. split; [|lia]. exists q. split; [|done].
        apply elem_of_app in Hq as [Hq|Hq]; [apply elem_of_app; by left|].
        apply elem_of_cons in Hq as [->|Hq]; [lia|].
        specialize (Hbelow q Hq). lia.
Qed.

Lemma ranker_from_dense seen items rank last i r p :
  StronglySorted points_desc (seen ++ items) →
  ranker_state seen rank last →
  ranker_from rank last items !! i = Some (r, p) →
  items !! i = Some p ∧ r = dense_rank (seen ++ items) p.
Proof.
  revert seen rank last i.
  induction items as [|item items IH]; intros seen rank last i Hsorted Hstate; [done|].
  destruct (ranker_state_step _ _ _ _ _ Hsorted Hstate) as [Hstate' Hrank].
  cbn [ranker_from]. destruct i as [|i]; simpl.
  - intros [= <- <-]. done.
  - intros Hi. rewrite cons_middle, app_assoc in Hsorted |- *.
    by apply (IH _ _ _ _ Hsorted Hstate').
Qed.

(** The [users] entry of the member-list context, in the vocabulary of
    the code: the ranker's output on the sorted, filtered roster. *)
Lemma member_list_users object kwargs w :
  let users := ranker (roster object (World.profiles w)) in
  (∃ context,
     OrganizationUsers_get_context_data object kwargs w = (Returns context, w)
     ∧ context !! "users" = Some (CUsers users)
     ∧ context !! "title" = Some (CString (Organization.name object +:+ " Members")))
  ∧ users.*2 ≡ₚ filter ranked_user (filter (is_member object) (World.profiles w))
  ∧ StronglySorted points_desc users.*2
  ∧ (∀ i r p, users !! i = Some (r, p) → users.*2 !! i = Some p ∧ r = dense_rank users.*2 p).
Proof.
  intros users.
  assert (users.*2 = roster object (World.profiles w)) as Hitems
    by apply ranker_from_items.
  split_and!.
  - eexists. split_and!; [reflexivity| |].
    + apply lookup_insert_eq.
    + rewrite lookup_insert_ne by done. apply lookup_insert_eq.
  - rewrite Hitems. apply roster_Permutation.
  - rewrite Hitems. apply roster_sorted.
  - intros i r p Hi. rewrite Hitems.
    apply (ranker_from_dense [] _ 0 None i r p); [apply roster_sorted| |done].
    split; [|done]. change (scores []) with (∅ : gset Z). by rewrite size_empty.
Qed.

Lemma StronglySorted_lookup_le {A} (R : relation A) `{!Reflexive R} (l : list A) i j x y :
  StronglySorted R l → (i ≤ j)%nat → l !! i = Some x → l !! j = Some y → R x y.
Proof.
  intros Hsorted. revert i j. induction Hsorted as [|z l Hsorted IH Hall]; intros i j Hij Hi Hj.
  - done.
  - destruct i as [|i], j as [|j]; simpl in *; try lia.
    + by simplify_eq.
    + simplify_eq. apply (proj1 (Forall_forall _ _) Hall). by eapply list_elem_of_lookup_2.
    + apply (IH i j); [lia | done | done].
Qed.

(** C9. The [users] entry of the context that the member-list view builds
    lists exactly the profile rows whose organization is the one shown,
    whose user is active and whose points are strictly positive, each row
    as often as it is in the table; a row never comes before one with
    more points; and each rank number is the dense rank of its profile,
    one more than the number of distinct scores above it. *)
Theorem member_list_shows_ranked_active_members object kwargs w :
  ∃ context users,
    OrganizationUsers_get_context_data object kwargs w = (Returns context, w)
    ∧ context !! "users" = Some (CUsers users)
    ∧ users.*2 ≡ₚ
        filter (λ q, Profile.organization_id q = Some (Organization.id object)
                     ∧ AuthUser.is_active (Profile.user q) = true
                     ∧ (0 < Profile.points q)%Z)
               (World.profiles w)
    ∧ (∀ i j p q, (i ≤ j)%nat → users.*2 !! i = Some p → users.*2 !! j = Some q →
                  (Profile.points q ≤ Profile.points p)%Z)
    ∧ (∀ i r p, users !! i = Some (r, p) →
                r = (1 + Z.of_nat (size (filter (λ v, (Profile.points p < v)%Z)
                                           (list_to_set (Profile.points <$> users.*2)
                                              : gset Z))))%Z).
Proof.
  destruct (member_list_users object kwargs w)
    as ((context & Hrun & Husers & _) & Hperm & Hsorted & Hranks).
  exists context, (ranker (roster object (World.profiles w))).
  split_and!; [done | done | | |].
  - rewrite Hperm, list_filter_filter. apply reflexive_eq, list_filter_iff.
    intros q. unfold ranked_user, is_member. naive_solver.
  - intros i j p q Hij Hi Hj.
    assert (Reflexive points_desc) by (intros x; unfold points_desc; lia).
    apply (StronglySorted_lookup_le points_desc _ i j p q Hsorted Hij Hi Hj).
  - intros i r p Hi. by destruct (Hranks i r p Hi) as [_ ->].
Qed.

(** * Further properties of the views *)

(** ** The not-found page *)

Lemma list_ascii_of_append s t :
  String.list_ascii_of_string (s +:+ t)
  = (String.list_ascii_of_string s ++ String.list_ascii_of_string t)%list.
Proof.
  induction s as [|a s IH]; [done|].
  change (String.list_ascii_of_string (String a s +:+ t))
    with (a :: String.list_ascii_of_string (s +:+ t)).
  by rewrite IH.
Qed.

Lemma string_app_inv_tail s1 s2 t : s1 +:+ t = s2 +:+ t → s1 = s2.
Proof.
  intros H. apply (f_equal String.list_ascii_of_string) in H.
  rewrite !list_ascii_of_append in H. apply app_inv_tail in H.
  apply (f_equal String.string_of_list_ascii) in H.
  by rewrite !String.string_of_list_ascii_of_string in H.
Qed.

(** X1. [organization_not_found] always answers with the "No such
    organization" page. A missing key and an empty key get the same
    generic text; a key that is not empty is quoted in the text, so that
    the pages of two different keys differ. *)
Theorem organization_not_found_quotes_the_key request :
  organization_not_found request None =
    GenericMessage "No such organization" "Could not find such organization."
  ∧ organization_not_found request (Some "") = organization_not_found request None
  ∧ (∀ k, k ≠ "" →
       organization_not_found request (Some k) =
         GenericMessage "No such organization"
           ("Could not find an organization with the key " +:+ dquote +:+ k +:+ dquote +:+ "."))
  ∧ (∀ k1 k2, k1 ≠ "" → k2 ≠ "" →
       organization_not_found request (Some k1) = organization_not_found request (Some k2) →
       k1 = k2).
Proof.
  assert (∀ k, k ≠ "" →
            organization_not_found request (Some k) =
              GenericMessage "No such organization"
                ("Could not find an organization with the key "
                   +:+ dquote +:+ k +:+ dquote +:+ ".")) as Hquoted.
  { intros [|a k] Hk; [done|]. reflexivity. }
  split_and!; [done | done | done |].
  intros k1 k2 Hk1 Hk2. rewrite !Hquoted by done. intros [= H].
  change (k1 +:+ dquote +:+ "." = k2 +:+ dquote +:+ ".") in H.
  by apply string_app_inv_tail in H.
Qed.

(** ** What a membership request can change *)

Lemma filter_has_key_singleton slug (rows : list Organization.t) org :
  filter (has_key slug) rows = [org] → org ∈ rows ∧ Organization.key org = slug.
Proof.
  intros H.
  assert (org ∈ filter (has_key slug) rows) as Hin by (rewrite H; apply list_elem_of_here).
  by apply list_elem_of_filter in Hin as [? ?].
Qed.

Lemma update_row_other p q rows :
  q ∈ rows → Profile.pk q ≠ Profile.pk p → q ∈ update_row p rows.
Proof.
  intros Hq Hne. induction rows as [|r rows IH]; [by apply elem_of_nil in Hq|].
  cbn [update_row]. apply elem_of_cons in Hq as [->|Hq].
  - rewrite decide_False by done. apply list_elem_of_here.
  - case_decide; apply list_elem_of_further; [done | by apply IH].
Qed.

Lemma update_row_elem_of p q rows :
  q ∈ update_row p rows → q = p ∨ (q ∈ rows ∧ Profile.pk q ≠ Profile.pk p) ∨
                           (q ∈ rows ∧ ¬ NoDup (Profile.pk <$> rows)).
Proof.
  induction rows as [|r rows IH]; cbn [update_row].
  - rewrite list_elem_of_singleton. by left.
  - case_decide as Hpk; rewrite elem_of_cons.
    + intros [->|Hq]; [by left|].
      destruct (decide (Profile.pk q = Profile.pk p)) as [Heq|Hne].
      * right; right. split; [by apply list_elem_of_further|].
        rewrite fmap_cons, NoDup_cons. intros [Hnin _]. apply Hnin.
        rewrite Hpk, <- Heq. by apply list_elem_of_fmap_2.
      * right; left. split; [by apply list_elem_of_further | done].
    + intros [->|Hq]; [right; left; split; [apply list_elem_of_here | done]|].
      destruct (IH Hq) as [->|[[Hin Hne]|[Hin Hdup]]]; [by left | |].
      * right; left. split; [by apply list_elem_of_further | done].
      * right; right. split; [by apply list_elem_of_further|].
        rewrite fmap_cons, NoDup_cons. intros [_ Hnd]. by apply Hdup.
Qed.

(** Every run of the GET handler of the membership views is of one of two
    kinds: it leaves the world as it was and does not redirect, or it is a
    permitted join or leave of the requesting profile, for an organization
    of the table that has the requested key, and redirects to its home. *)
Lemma OrganizationMembershipChange_get_cases self request args kwargs w :
  let r := OrganizationMembershipChange_get self request args kwargs w in
  (r.2 = w ∧ ∀ url, r.1 ≠ Returns (HttpResponseRedirect url))
  ∨ ∃ org profile p p',
      (self = JoinOrganization ∧ Profile.organization_id p = None
         ∧ p' = joined org (World.now w) p
       ∨ self = LeaveOrganization ∧ Profile.organization_id p = Some (Organization.id org)
         ∧ p' = left p)
      ∧ kwargs !! "key" = Some (Organization.key org)
      ∧ org ∈ World.organizations w
      ∧ HttpRequest.user request = AuthenticatedUser profile
      ∧ World.heap w !! profile = Some p
      ∧ r = (Returns (HttpResponseRedirect (reverse "organization_home" [Organization.key org])),
             membership_changed org profile p' w).
Proof.
  intros r. subst r.
  destruct (kwargs !! "key") as [slug|] eqn:Hk; last first.
  { left. unfold OrganizationMembershipChange_get, try_except, SingleObjectMixin_get_object.
    rewrite Hk. by split. }
  destruct (filter (has_key slug) (World.organizations w)) as [|org [|org' rows]] eqn:Hrows.
  - left. rewrite (OrganizationMembershipChange_get_not_found _ _ _ _ _ _ Hk Hrows).
    split; [done|]. intros url. unfold organization_not_found, generic_message.
    by destruct slug.
  - destruct (filter_has_key_singleton _ _ _ Hrows) as [Horg Hkey]. subst slug.
    destruct (HttpRequest.user request) as [|profile] eqn:Hu.
    { left. unfold OrganizationMembershipChange_get, try_except.
      rewrite (get_object_found _ _ _ _ Hk Hrows).
      unfold request_user_profile. rewrite Hu. by split. }
    rewrite (OrganizationMembershipChange_get_found _ _ _ _ _ _ _ _ Hk Hrows Hu).
    destruct (World.heap w !! profile) as [p|] eqn:Hp; last first.
    { left. destruct self; simpl; try (by split);
        unfold JoinOrganization_handle, LeaveOrganization_handle, mbind, M_bind, deref;
        rewrite Hp; by split. }
    destruct self; simpl; try (left; by split).
    + destruct (Profile.organization_id p) as [i|] eqn:Hi.
      * left. rewrite (JoinOrganization_handle_refuses _ _ _ _ _ _ Hp Hi). by split.
      * right. rewrite (JoinOrganization_handle_joins _ _ _ _ _ Hp Hi).
        exists org, profile, p, (joined org (World.now w) p). split_and!; try done.
        left. by split_and!.
    + destruct (decide (Profile.organization_id p = Some (Organization.id org))) as [Hi|Hi].
      * right. rewrite (LeaveOrganization_handle_leaves _ _ _ _ _ Hp Hi).
        exists org, profile, p, (left p). split_and!; try done.
        right. by split_and!.
      * left. rewrite (LeaveOrganization_handle_refuses _ _ _ _ _ Hp Hi). by split.
  - left. unfold OrganizationMembershipChange_get, try_except, SingleObjectMixin_get_object.
    rewrite Hk. unfold mbind, M_bind, gets, try_except; simpl. rewrite Hrows. by split.
Qed.

(** X2. The GET handler of the membership views, whatever the request, keeps
    the organization table and the clock, touches no profile object but
    the requester's, keeps the requester's key, user and points, keeps
    every row of another profile, and keeps every cache entry but the
    member-count fragment of an organization with the requested key. *)
Theorem membership_request_touches_only_the_requester self request args kwargs w :
  let w' := (OrganizationMembershipChange_get self request args kwargs w).2 in
  World.organizations w' = World.organizations w
  ∧ World.now w' = World.now w
  ∧ (∀ other, HttpRequest.user request ≠ AuthenticatedUser other →
       World.heap w' !! other = World.heap w !! other)
  ∧ (∀ profile p, HttpRequest.user request = AuthenticatedUser profile →
       World.heap w !! profile = Some p →
       ∃ p', World.heap w' !! profile = Some p'
             ∧ Profile.pk p' = Profile.pk p
             ∧ Profile.user p' = Profile.user p
             ∧ Profile.points p' = Profile.points p
             ∧ ∀ q, q ∈ World.profiles w → Profile.pk q ≠ Profile.pk p →
                    q ∈ World.profiles w')
  ∧ (∀ k, (∀ org, org ∈ World.organizations w →
                  kwargs !! "key" = Some (Organization.key org) →
                  k ≠ make_template_fragment_key "org_member_count" [Organization.id org]) →
          World.cache w' !! k = World.cache w !! k).
Proof.
  intros w'. subst w'.
  destruct (OrganizationMembershipChange_get_cases self request args kwargs w)
    as [[-> _]|(org & profile & p & p' & Hkind & Hk & Horg & Hu & Hp & ->)].
  { split_and!; try done. intros profile p _ Hp. exists p. by split_and!. }
  assert (Profile.pk p' = Profile.pk p ∧ Profile.user p' = Profile.user p
          ∧ Profile.points p' = Profile.points p) as (Hpk & Huser & Hpoints).
  { by destruct Hkind as [(_ & _ & ->)|(_ & _ & ->)]. }
  simpl. split_and!; try done.
  - intros other Hother. apply lookup_insert_ne. intros ->. by apply Hother.
  - intros profile' p0 Hu' Hp0. rewrite Hu in Hu'. injection Hu' as <-.
    rewrite Hp in Hp0. injection Hp0 as <-.
    exists p'. split_and!; try done; [apply lookup_insert_eq|].
    intros q Hq Hne. apply update_row_other; [done | congruence].
  - intros k Hk'. apply lookup_delete_ne. intros <-. by apply (Hk' org).
Qed.

(** X3. The handler redirects exactly when it has saved a membership change:
    a run that ends in a message page or in an exception has written
    nothing, and a run that redirects has logged one save of the profile
    followed by one deletion from the cache. *)
Theorem membership_redirect_iff_saved self request args kwargs w :
  let r := OrganizationMembershipChange_get self request args kwargs w in
  ((∃ url, r.1 = Returns (HttpResponseRedirect url)) ↔ r.2 ≠ w)
  ∧ (r.2 = w ∨ ∃ p' k, World.effects r.2 = (World.effects w ++ [ProfileSave p'; CacheDelete k])%list).
Proof.
  intros r. subst r.
  destruct (OrganizationMembershipChange_get_cases self request args kwargs w)
    as [[Hw Hno]|(org & profile & p & p' & _ & _ & _ & _ & _ & Hrun)].
  - split; [|by left]. split; [intros [url Hurl]; by destruct (Hno url) | by intros []].
  - rewrite Hrun. simpl. split; [|right; by eexists _, _]. split; [|by eexists].
    intros _ Hsame. apply (f_equal World.effects) in Hsame. simpl in Hsame.
    apply (f_equal length) in Hsame. rewrite length_app in Hsame. simpl in Hsame. lia.
Qed.

(** ** Joining and leaving in sequence *)

Lemma update_row_update_row p p' rows :
  Profile.pk p = Profile.pk p' → update_row p (update_row p' rows) = update_row p rows.
Proof.
  intros Hpk. induction rows as [|r rows IH]; cbn [update_row].
  - by rewrite decide_True.
  - destruct (decide (Profile.pk r = Profile.pk p')) as [Hr|Hr]; cbn [update_row].
    + rewrite decide_True by done. by rewrite decide_True by congruence.
    + rewrite !decide_False by congruence. by rewrite IH.
Qed.

Lemma update_row_in_sync p rows :
  NoDup (Profile.pk <$> rows) → p ∈ rows → update_row p rows = rows.
Proof.
  induction rows as [|r rows IH]; intros Hnd Hin; [by apply elem_of_nil in Hin|].
  rewrite fmap_cons, NoDup_cons in Hnd. destruct Hnd as [Hnin Hnd].
  cbn [update_row]. apply elem_of_cons in Hin as [->|Hin].
  - by rewrite decide_True.
  - rewrite decide_False; [by rewrite IH|].
    intros Hpk. apply Hnin. rewrite Hpk. by apply list_elem_of_fmap_2.
Qed.

Lemma membership_changed_lookup org profile p' w :
  World.heap (membership_changed org profile p' w) !! profile = Some p'.
Proof. apply lookup_insert_eq. Qed.

(** X4. Called directly, the GET handler of the join view followed by the
    GET handler of the leave view, for the same organization, gives the
    profile back: both runs return the redirect, the profile object is as
    it was before the join, and so is its row when the table was in step
    with the object. The organization table is untouched; what remains of
    the two runs is the dropped member-count fragment and the effect
    log. *)
Theorem join_then_leave_restores_the_profile request args kwargs w slug org profile p :
  kwargs !! "key" = Some slug →
  filter (has_key slug) (World.organizations w) = [org] →
  HttpRequest.user request = AuthenticatedUser profile →
  World.heap w !! profile = Some p →
  Profile.organization_id p = None →
  Profile.organization_join_time p = None →
  let joined_world := (OrganizationMembershipChange_get JoinOrganization request args kwargs w).2 in
  let r := OrganizationMembershipChange_get LeaveOrganization request args kwargs joined_world in
  (OrganizationMembershipChange_get JoinOrganization request args kwargs w).1 =
    Returns (HttpResponseRedirect (reverse "organization_home" [Organization.key org]))
  ∧ r.1 = Returns (HttpResponseRedirect (reverse "organization_home" [Organization.key org]))
  ∧ World.heap r.2 = World.heap w
  ∧ World.profiles r.2 = update_row p (World.profiles w)
  ∧ (NoDup (Profile.pk <$> World.profiles w) → p ∈ World.profiles w →
     World.profiles r.2 = World.profiles w)
  ∧ World.organizations r.2 = World.organizations w
  ∧ World.cache r.2 =
      delete (make_template_fragment_key "org_member_count" [Organization.id org]) (World.cache w).
Proof.
  intros Hk Hrows Hu Hp Hnone Htime joined_world r.
  assert (OrganizationMembershipChange_get JoinOrganization request args kwargs w =
            (Returns (HttpResponseRedirect (reverse "organization_home" [Organization.key org])),
             membership_changed org profile (joined org (World.now w) p) w)) as Hjoin.
  { rewrite (OrganizationMembershipChange_get_found _ _ _ _ _ _ _ _ Hk Hrows Hu). simpl.
    by rewrite (JoinOrganization_handle_joins _ _ _ _ _ Hp Hnone). }
  assert (joined_world = membership_changed org profile (joined org (World.now w) p) w) as Hjoined.
  { unfold joined_world. by rewrite Hjoin. }
  split; [by rewrite Hjoin|].
  assert (left (joined org (World.now w) p) = p) as Hback.
  { destruct p. simpl in *. by subst. }
  assert (r = (Returns (HttpResponseRedirect (reverse "organization_home" [Organization.key org])),
               membership_changed org profile p joined_world)) as ->.
  { unfold r.
    rewrite (OrganizationMembershipChange_get_found _ _ _ _ _ _ org profile Hk);
      [|by rewrite Hjoined|done].
    simpl. erewrite LeaveOrganization_handle_leaves;
      [|rewrite Hjoined; apply membership_changed_lookup|done].
    by rewrite Hback. }
  assert (World.profiles (membership_changed org profile p joined_world)
          = update_row p (World.profiles w)) as Hprofiles.
  { rewrite Hjoined. simpl. by apply update_row_update_row. }
  cbn [fst snd]. rewrite Hprofiles, Hjoined. simpl. split_and!; try done.
  - rewrite insert_insert_eq. by apply insert_id.
  - intros Hnd Hin. by apply update_row_in_sync.
  - apply delete_delete_eq.
Qed.

(** X5. Called directly on the world a successful join left behind, the GET
    handler of the join view, for the same or for any other existing
    organization, returns the already-in-an-organization page, and the
    GET handler of the leave view, for an organization with another id,
    returns the not-in page; neither run changes that world. *)
Theorem joined_profile_must_leave_first request args kwargs w slug org profile p
    kwargs2 slug2 org2 :
  kwargs !! "key" = Some slug →
  filter (has_key slug) (World.organizations w) = [org] →
  HttpRequest.user request = AuthenticatedUser profile →
  World.heap w !! profile = Some p →
  Profile.organization_id p = None →
  kwargs2 !! "key" = Some slug2 →
  filter (has_key slug2) (World.organizations w) = [org2] →
  let joined_world := (OrganizationMembershipChange_get JoinOrganization request args kwargs w).2 in
  OrganizationMembershipChange_get JoinOrganization request args kwargs2 joined_world =
    (Returns (GenericMessage "Joining organization" "You are already in an organization."),
     joined_world)
  ∧ (Organization.id org2 ≠ Organization.id org →
     OrganizationMembershipChange_get LeaveOrganization request args kwargs2 joined_world =
       (Returns (GenericMessage "Leaving organization"
                   ("You are not in " +:+ dquote +:+ Organization.key org2 +:+ dquote +:+ ".")),
        joined_world)).
Proof.
  intros Hk Hrows Hu Hp Hnone Hk2 Hrows2 joined_world.
  assert (joined_world = membership_changed org profile (joined org (World.now w) p) w) as Hjoined.
  { unfold joined_world.
    rewrite (OrganizationMembershipChange_get_found _ _ _ _ _ _ _ _ Hk Hrows Hu). simpl.
    by rewrite (JoinOrganization_handle_joins _ _ _ _ _ Hp Hnone). }
  assert (World.heap joined_world !! profile = Some (joined org (World.now w) p)) as Hp'.
  { rewrite Hjoined. apply membership_changed_lookup. }
  assert (filter (has_key slug2) (World.organizations joined_world) = [org2]) as Hrows2'.
  { by rewrite Hjoined. }
  split.
  - rewrite (OrganizationMembershipChange_get_found _ _ _ _ _ _ _ _ Hk2 Hrows2' Hu). simpl.
    by erewrite JoinOrganization_handle_refuses.
  - intros Hne.
    rewrite (OrganizationMembershipChange_get_found _ _ _ _ _ _ _ _ Hk2 Hrows2' Hu). simpl.
    erewrite LeaveOrganization_handle_refuses; [done | done |].
    simpl. congruence.
Qed.

(** ** Membership and the roster *)

Lemma OrganizationUsers_context_users object kwargs w :
  ∃ context,
    OrganizationUsers_get_context_data object kwargs w = (Returns context, w)
    ∧ context !! "users" = Some (CUsers (ranker (roster object (World.profiles w)))).
Proof. eexists. split; [reflexivity | apply lookup_insert_eq]. Qed.

Lemma elem_of_roster org rows q :
  q ∈ roster org rows ↔ q ∈ rows ∧ is_member org q ∧ ranked_user q.
Proof.
  rewrite roster_Permutation, !list_elem_of_filter. naive_solver.
Qed.

Lemma elem_of_ranker items rank q : (rank, q) ∈ ranker items → q ∈ items.
Proof.
  intros Hin. rewrite <- (ranker_from_items 0 None items).
  apply list_elem_of_fmap. by exists (rank, q).
Qed.

Lemma ranker_covers items q : q ∈ items → ∃ rank, (rank, q) ∈ ranker items.
Proof.
  rewrite <- (ranker_from_items 0 None items) at 1.
  intros ([rank q'] & -> & Hin)%list_elem_of_fmap. by exists rank.
Qed.

(** X6. After a join, an active profile with points appears, with a rank, in
    the [users] of the member list of the organization it joined. *)
Theorem joined_profile_is_listed request args kwargs w slug org profile p context_kwargs :
  kwargs !! "key" = Some slug →
  filter (has_key slug) (World.organizations w) = [org] →
  HttpRequest.user request = AuthenticatedUser profile →
  World.heap w !! profile = Some p →
  Profile.organization_id p = None →
  ranked_user p →
  let joined_world := (OrganizationMembershipChange_get JoinOrganization request args kwargs w).2 in
  ∃ context users rank,
    OrganizationUsers_get_context_data org context_kwargs joined_world
      = (Returns context, joined_world)
    ∧ context !! "users" = Some (CUsers users)
    ∧ (rank, joined org (World.now w) p) ∈ users.
Proof.
  intros Hk Hrows Hu Hp Hnone Hranked joined_world.
  assert (joined_world = membership_changed org profile (joined org (World.now w) p) w) as Hjoined.
  { unfold joined_world.
    rewrite (OrganizationMembershipChange_get_found _ _ _ _ _ _ _ _ Hk Hrows Hu). simpl.
    by rewrite (JoinOrganization_handle_joins _ _ _ _ _ Hp Hnone). }
  destruct (OrganizationUsers_context_users org context_kwargs joined_world)
    as (context & Hrun & Husers).
  destruct (ranker_covers (roster org (World.profiles joined_world))
              (joined org (World.now w) p)) as [rank Hrank].
  { apply elem_of_roster. rewrite Hjoined. simpl. split_and!.
    - apply update_row_saved.
    - done.
    - done. }
  by exists context, (ranker (roster org (World.profiles joined_world))), rank.
Qed.

(** X7. After a leave, and with primary keys that are not repeated in the
    profile table, no member list of any organization shows a row of the
    profile that left. *)
Theorem left_profile_is_unlisted request args kwargs w slug org profile p
    any_organization context_kwargs :
  kwargs !! "key" = Some slug →
  filter (has_key slug) (World.organizations w) = [org] →
  HttpRequest.user request = AuthenticatedUser profile →
  World.heap w !! profile = Some p →
  Profile.organization_id p = Some (Organization.id org) →
  NoDup (Profile.pk <$> World.profiles w) →
  let left_world := (OrganizationMembershipChange_get LeaveOrganization request args kwargs w).2 in
  ∃ context users,
    OrganizationUsers_get_context_data any_organization context_kwargs left_world
      = (Returns context, left_world)
    ∧ context !! "users" = Some (CUsers users)
    ∧ ∀ rank q, (rank, q) ∈ users → Profile.pk q ≠ Profile.pk p.
Proof.
  intros Hk Hrows Hu Hp Hin Hnd left_world.
  assert (left_world = membership_changed org profile (left p) w) as Hleft.
  { unfold left_world.
    rewrite (OrganizationMembershipChange_get_found _ _ _ _ _ _ _ _ Hk Hrows Hu). simpl.
    by rewrite (LeaveOrganization_handle_leaves _ _ _ _ _ Hp Hin). }
  destruct (OrganizationUsers_context_users any_organization context_kwargs left_world)
    as (context & Hrun & Husers).
  exists context, (ranker (roster any_organization (World.profiles left_world))).
  split_and!; [done | done |].
  intros rank q Hq%elem_of_ranker%elem_of_roster. destruct Hq as (Hrow & Hmember & _).
  rewrite Hleft in Hrow. simpl in Hrow.
  apply update_row_elem_of in Hrow as [->|[[_ Hne]|[_ Hdup]]].
  - by unfold is_member in Hmember.
  - done.
  - by destruct Hdup.
Qed.

Lemma filter_has_id_unique (rows : list Organization.t) org :
  NoDup (Organization.id <$> rows) → org ∈ rows →
  filter (has_id (Organization.id org)) rows = [org].
Proof.
  induction rows as [|r rows IH]; intros Hnd Hin; [by apply elem_of_nil in Hin|].
  rewrite fmap_cons, NoDup_cons in Hnd. destruct Hnd as [Hnin Hnd].
  apply elem_of_cons in Hin as [->|Hin].
  - rewrite filter_cons_True by done. by rewrite filter_has_id_absent.
  - rewrite filter_cons_False; [by apply IH|].
    unfold has_id. intros Hid. apply Hnin. rewrite Hid. by apply list_elem_of_fmap_2.
Qed.

(** X8. In a world where no profile is a member of two organization rows, the
    profile a join has saved is a member of exactly the organization it
    joined, and the profile a leave has saved is a member of none. *)
Theorem saved_profile_belongs_where_it_should request args kwargs w slug org profile p :
  kwargs !! "key" = Some slug →
  filter (has_key slug) (World.organizations w) = [org] →
  HttpRequest.user request = AuthenticatedUser profile →
  World.heap w !! profile = Some p →
  at_most_one_organization w →
  (Profile.organization_id p = None →
   let w' := (OrganizationMembershipChange_get JoinOrganization request args kwargs w).2 in
   ∃ p', World.heap w' !! profile = Some p' ∧ p' ∈ World.profiles w'
         ∧ organizations_of w' p' = [org])
  ∧ (Profile.organization_id p = Some (Organization.id org) →
     let w' := (OrganizationMembershipChange_get LeaveOrganization request args kwargs w).2 in
     ∃ p', World.heap w' !! profile = Some p' ∧ p' ∈ World.profiles w'
           ∧ organizations_of w' p' = []).
Proof.
  intros Hk Hrows Hu Hp Hinv. apply at_most_one_unique_ids in Hinv.
  destruct (filter_has_key_singleton _ _ _ Hrows) as [Horg _].
  split; intros Hi w'; subst w';
    rewrite (OrganizationMembershipChange_get_found _ _ _ _ _ _ _ _ Hk Hrows Hu); simpl.
  - rewrite (JoinOrganization_handle_joins _ _ _ _ _ Hp Hi).
    exists (joined org (World.now w) p). split_and!.
    + apply lookup_insert_eq.
    + apply update_row_saved.
    + rewrite organizations_of_has_id. simpl. by apply filter_has_id_unique.
  - rewrite (LeaveOrganization_handle_leaves _ _ _ _ _ Hp Hi).
    exists (left p). split_and!.
    + apply lookup_insert_eq.
    + apply update_row_saved.
    + by rewrite organizations_of_has_id.
Qed.

(** ** The order of the checks in a membership request *)

(** X9. The GET handler of the membership views looks the organization up
    before it touches [request.user.profile] and before it calls
    [handle]: a key without an organization gets the not-found page for
    every user, anonymous ones included, and on every view class; when the
    organization exists, an anonymous user makes the handler raise
    [AttributeError], and the base class, whose [handle] is abstract,
    raises [NotImplementedError]. None of these runs changes the world. *)
Theorem membership_lookup_comes_first self request args kwargs w slug :
  kwargs !! "key" = Some slug →
  (filter (has_key slug) (World.organizations w) = [] →
   OrganizationMembershipChange_get self request args kwargs w =
     (Returns (organization_not_found request (Some slug)), w))
  ∧ (∀ org, filter (has_key slug) (World.organizations w) = [org] →
       HttpRequest.user request = AnonymousUser →
       OrganizationMembershipChange_get self request args kwargs w = (Raises AttributeError, w))
  ∧ (∀ org profile, filter (has_key slug) (World.organizations w) = [org] →
       HttpRequest.user request = AuthenticatedUser profile →
       OrganizationMembershipChange_get OrganizationMembershipChange request args kwargs w =
         (Raises NotImplementedError, w)).
Proof.
  intros Hk. split_and!.
  - intros Hrows. unfold OrganizationMembershipChange_get, try_except.
    by rewrite (get_object_missing _ _ _ Hk Hrows), Hk.
  - intros org Hrows Hu. unfold OrganizationMembershipChange_get, try_except.
    rewrite (get_object_found _ _ _ _ Hk Hrows).
    unfold request_user_profile. by rewrite Hu.
  - intros org profile Hrows Hu.
    by rewrite (OrganizationMembershipChange_get_found _ _ _ _ _ _ _ _ Hk Hrows Hu).
Qed.

(** ** Creating an organization *)

Lemma update_organization_fresh o rows :
  Organization.id o ∉ Organization.id <$> rows →
  update_organization o rows = (rows ++ [o])%list.
Proof.
  induction rows as [|r rows IH]; [done|].
  rewrite fmap_cons, not_elem_of_cons. intros [Hne Hnin].
  cbn [update_organization]. rewrite decide_False by done. by rewrite IH.
Qed.

Lemma fresh_id_fresh rows : fresh_id rows ∉ Organization.id <$> rows.
Proof.
  intros (o & Hid & Hin)%list_elem_of_fmap. apply fresh_id_above in Hin. lia.
Qed.

(** X10. [NewOrganization.dispatch] reads [request.user.profile] before the
    login check of the next [dispatch] is reached: an anonymous request
    raises [AttributeError] and is not redirected to the login page. *)
Theorem anonymous_creation_request_raises request args kwargs w :
  HttpRequest.user request = AnonymousUser →
  dispatch NewOrganization request args kwargs w = (Raises AttributeError, w)
  ∧ LoginRequiredMixin_dispatch (λ r, View_dispatch NewOrganization (PRequest r))
      request args kwargs w = (Returns (HttpResponseRedirect login_url), w).
Proof.
  intros Hu. split.
  - unfold dispatch, NewOrganization_dispatch, request_user_profile. by rewrite Hu.
  - unfold LoginRequiredMixin_dispatch. by rewrite Hu.
Qed.

(** The handlers of the creation view, past the checks of its dispatch. *)
Lemma CreateView_post_cases request args kwargs w :
  let r := CreateView_post NewOrganization request args kwargs w in
  r.2 = w
  ∨ ∃ profile p name key about,
      HttpRequest.user request = AuthenticatedUser profile
      ∧ World.heap w !! profile = Some p
      ∧ clean_fields ["name"; "key"; "about"] (request_POST request) = Some [name; key; about]
      ∧ filter (has_key key) (World.organizations w) = []
      ∧ let created := Organization.mk (fresh_id (World.organizations w)) key name about
                         (Some (Profile.pk p)) in
        r = (Returns (HttpResponseRedirect (get_absolute_url created)),
             World.log (OrganizationSave created)
               (World.set_organizations (World.organizations w ++ [created])%list w)).
Proof.
  intros r. subst r.
  destruct (CreateView_post NewOrganization request args kwargs w) as [out w'] eqn:Hrun.
  cbn [fst snd]. revert Hrun. unfold CreateView_post.
  unfold mbind at 1, M_bind, gets.
  destruct (clean_fields ["name"; "key"; "about"] (request_POST request))
    as [[|name [|key [|about [|? ?]]]]|] eqn:Hclean; try (intros [= <- <-]; by left).
  simpl.
  destruct (decide (filter (has_key key) (World.organizations w) = [])) as [Hfree|];
    [|intros [= <- <-]; by left].
  unfold NewOrganization_form_valid, request_user_profile.
  destruct (HttpRequest.user request) as [|profile] eqn:Hu; [intros [= <- <-]; by left|].
  unfold mbind, M_bind, mret, M_ret, deref, gets, Organization_save, modify.
  destruct (World.heap w !! profile) as [p|] eqn:Hp; [|intros [= <- <-]; by left].
  simpl. rewrite update_organization_fresh by apply fresh_id_fresh.
  intros [= <- <-]. right. exists profile, p, name, key, about. by split_and!.
Qed.

(** Every run of the creation endpoint either leaves the world as it was,
    or is the creation of one organization by a profile that passed both
    checks. *)
Lemma NewOrganization_dispatch_cases request args kwargs w :
  let r := dispatch NewOrganization request args kwargs w in
  r.2 = w
  ∨ ∃ profile p name key about,
      HttpRequest.user request = AuthenticatedUser profile
      ∧ World.heap w !! profile = Some p
      ∧ (50 ≤ Profile.points p)%Z
      ∧ Profile.organization_id p = None
      ∧ (HttpRequest.method request = POST ∨ HttpRequest.method request = PUT)
      ∧ clean_fields ["name"; "key"; "about"] (request_POST request) = Some [name; key; about]
      ∧ filter (has_key key) (World.organizations w) = []
      ∧ let created := Organization.mk (fresh_id (World.organizations w)) key name about
                         (Some (Profile.pk p)) in
        r = (Returns (HttpResponseRedirect (get_absolute_url created)),
             World.log (OrganizationSave created)
               (World.set_organizations (World.organizations w ++ [created])%list w)).
Proof.
  intros r. subst r.
  destruct (dispatch NewOrganization request args kwargs w) as [out w'] eqn:Hrun.
  cbn [fst snd]. revert Hrun.
  unfold dispatch, NewOrganization_dispatch, request_user_profile.
  destruct (HttpRequest.user request) as [|profile] eqn:Hu; [intros [= <- <-]; by left|].
  unfold mbind at 1, M_bind, mret at 1, M_ret.
  unfold mbind at 1, M_bind, deref.
  destruct (World.heap w !! profile) as [p|] eqn:Hp; [|intros [= <- <-]; by left].
  case_decide as Hpoints; [intros [= <- <-]; by left|].
  unfold Profile_organization.
  destruct (Profile.organization_id p) as [i|] eqn:Hi.
  { unfold mbind, M_bind, gets, queryset_get; simpl.
    destruct (filter (has_id i) (World.organizations w)) as [|o [|o' rows]];
      intros [= <- <-]; by left. }
  unfold mbind, M_bind, mret, M_ret, LoginRequiredMixin_dispatch, View_dispatch.
  rewrite Hu.
  destruct (HttpRequest.method request) eqn:Hm; simpl; try (intros [= <- <-]; by left).
  all: intros Hrun;
       destruct (CreateView_post_cases request args kwargs w)
         as [Hsame|(profile' & p' & name & key & about & Hu' & Hp' & Hclean & Hfree & Hpost)];
       rewrite Hrun in *; [by left|].
  all: rewrite Hu in Hu'; injection Hu' as <-; rewrite Hp in Hp'; injection Hp' as <-.
  all: right; exists profile, p, name, key, about; split_and!; try done; try lia.
  - by left.
  - by right.
Qed.

(** The run of the creation endpoint for a profile that passes both checks and
    posts a form that the model accepts, with an unused key. *)
Lemma NewOrganization_dispatch_creates request args kwargs w profile p name key about :
  HttpRequest.user request = AuthenticatedUser profile →
  World.heap w !! profile = Some p →
  (50 ≤ Profile.points p)%Z →
  Profile.organization_id p = None →
  HttpRequest.method request = POST →
  clean_fields ["name"; "key"; "about"] (HttpRequest.POST request) = Some [name; key; about] →
  filter (has_key key) (World.organizations w) = [] →
  let created := Organization.mk (fresh_id (World.organizations w)) key name about
                   (Some (Profile.pk p)) in
  dispatch NewOrganization request args kwargs w =
    (Returns (HttpResponseRedirect (get_absolute_url created)),
     World.log (OrganizationSave created)
       (World.set_organizations (World.organizations w ++ [created])%list w)).
Proof.
  intros Hu Hp Hpoints Hnone Hmethod Hclean Hfree created.
  unfold dispatch, NewOrganization_dispatch.
  rewrite (run_bind _ _ _ _ _ (run_request_user_profile _ _ _ Hu)).
  rewrite (run_bind _ _ _ _ _ (run_deref _ _ _ Hp)).
  rewrite decide_False by lia. unfold Profile_organization. rewrite Hnone.
  unfold mbind at 1, M_bind, mret at 1, M_ret, LoginRequiredMixin_dispatch, View_dispatch.
  rewrite Hu, Hmethod. cbn [handler].
  unfold CreateView_post, request_POST. rewrite Hmethod, Hclean.
  unfold mbind at 1, M_bind, gets. simpl.
  destruct (decide (filter (has_key key) (World.organizations w) = [])); [|done].
  unfold NewOrganization_form_valid.
  rewrite (run_bind _ _ _ _ _ (run_request_user_profile _ _ _ Hu)).
  rewrite (run_bind _ _ _ _ _ (run_deref _ _ _ Hp)).
  unfold mbind, M_bind, mret, M_ret, gets, Organization_save, modify. simpl.
  by rewrite update_organization_fresh by apply fresh_id_fresh.
Qed.

(** X11. A profile with at least 50 points and no organization that POSTs a
    form the model accepts, with an unused key, creates one organization:
    the endpoint redirects to it, the table gains exactly this row, with a
    new id, the cleaned fields and the requesting profile as registrant,
    and the effect log gains its save. No profile is touched: the creator
    is registrant of the new organization and still a member of none. *)
Theorem creation_adds_one_organization request args kwargs w profile p name key about :
  HttpRequest.user request = AuthenticatedUser profile →
  World.heap w !! profile = Some p →
  (50 ≤ Profile.points p)%Z →
  Profile.organization_id p = None →
  HttpRequest.method request = POST →
  clean_fields ["name"; "key"; "about"] (HttpRequest.POST request) = Some [name; key; about] →
  filter (has_key key) (World.organizations w) = [] →
  let created := Organization.mk (fresh_id (World.organizations w)) key name about
                   (Some (Profile.pk p)) in
  let r := dispatch NewOrganization request args kwargs w in
  r.1 = Returns (HttpResponseRedirect (get_absolute_url created))
  ∧ World.organizations r.2 = (World.organizations w ++ [created])%list
  ∧ (Organization.id created ∉ Organization.id <$> World.organizations w)
  ∧ World.effects r.2 = (World.effects w ++ [OrganizationSave created])%list
  ∧ World.heap r.2 = World.heap w
  ∧ World.profiles r.2 = World.profiles w
  ∧ World.cache r.2 = World.cache w
  ∧ organizations_of r.2 p = [].
Proof.
  intros Hu Hp Hpoints Hnone Hmethod Hclean Hfree created r.
  unfold r.
  rewrite (NewOrganization_dispatch_creates _ _ _ _ _ _ _ _ _
             Hu Hp Hpoints Hnone Hmethod Hclean Hfree).
  simpl. split_and!; try done.
  - apply fresh_id_fresh.
  - rewrite organizations_of_has_id. by rewrite Hnone.
Qed.

(** X12. Whatever the request, the creation endpoint touches no profile object,
    no profile row and no cache entry, and keeps every organization row it
    found; a request that is neither a POST nor a PUT changes nothing at
    all; and a row it adds has, as registrant, the requesting profile,
    which has at least 50 points and no organization. *)
Theorem creation_request_only_adds request args kwargs w :
  let w' := (dispatch NewOrganization request args kwargs w).2 in
  World.heap w' = World.heap w
  ∧ World.profiles w' = World.profiles w
  ∧ World.cache w' = World.cache w
  ∧ (∀ o, o ∈ World.organizations w → o ∈ World.organizations w')
  ∧ (w' = w ∨ HttpRequest.method request = POST ∨ HttpRequest.method request = PUT)
  ∧ (∀ o, o ∈ World.organizations w' →
          o ∈ World.organizations w
          ∨ ∃ profile p, HttpRequest.user request = AuthenticatedUser profile
                         ∧ World.heap w !! profile = Some p
                         ∧ Organization.registrant o = Some (Profile.pk p)
                         ∧ Profile.organization_id p = None
                         ∧ (50 ≤ Profile.points p)%Z).
Proof.
  intros w'. subst w'.
  destruct (NewOrganization_dispatch_cases request args kwargs w)
    as [->|(profile & p & name & key & about & Hu & Hp & Hpoints & Hnone & Hmethod & _ & _
            & ->)].
  { split_and!; try done; [by left | by left]. }
  simpl. split_and!; try done.
  - intros o Ho. apply elem_of_app. by left.
  - by right.
  - intros o [Ho|Ho%list_elem_of_singleton]%elem_of_app; [by left|].
    right. exists profile, p. subst o. by split_and!.
Qed.

(** X13. The organization a profile has just created through the creation
    endpoint is found under its key by the lookup of the membership views,
    and the creator is still without an organization, so that the GET
    handler of the join view, called directly on the world the creation
    left, redirects and saves the creator as a member of the new
    organization. *)
Theorem created_organization_is_joinable request args kwargs w profile p name key about
    join_request join_args join_kwargs :
  HttpRequest.user request = AuthenticatedUser profile →
  World.heap w !! profile = Some p →
  (50 ≤ Profile.points p)%Z →
  Profile.organization_id p = None →
  HttpRequest.method request = POST →
  clean_fields ["name"; "key"; "about"] (HttpRequest.POST request) = Some [name; key; about] →
  filter (has_key key) (World.organizations w) = [] →
  HttpRequest.user join_request = AuthenticatedUser profile →
  join_kwargs !! "key" = Some key →
  let created := Organization.mk (fresh_id (World.organizations w)) key name about
                   (Some (Profile.pk p)) in
  let created_world := (dispatch NewOrganization request args kwargs w).2 in
  SingleObjectMixin_get_object join_kwargs created_world = (Returns created, created_world)
  ∧ OrganizationMembershipChange_get JoinOrganization join_request join_args join_kwargs
      created_world =
    (Returns (HttpResponseRedirect (reverse "organization_home" [key])),
     membership_changed created profile (joined created (World.now w) p) created_world).
Proof.
  intros Hu Hp Hpoints Hnone Hmethod Hclean Hfree Hu' Hk created created_world.
  assert (created_world =
            World.log (OrganizationSave created)
              (World.set_organizations (World.organizations w ++ [created])%list w)) as Hworld.
  { unfold created_world.
    by rewrite (NewOrganization_dispatch_creates _ _ _ _ _ _ _ _ _
                  Hu Hp Hpoints Hnone Hmethod Hclean Hfree). }
  assert (filter (has_key key) (World.organizations created_world) = [created]) as Hrows.
  { rewrite Hworld. simpl. rewrite filter_app, Hfree. simpl.
    by rewrite filter_cons_True. }
  assert (World.heap created_world !! profile = Some p) as Hp'.
  { by rewrite Hworld. }
  split.
  - by apply (get_object_found _ _ key).
  - rewrite (OrganizationMembershipChange_get_found _ _ _ _ _ _ _ _ Hk Hrows Hu'). simpl.
    rewrite (JoinOrganization_handle_joins _ _ _ _ _ Hp' Hnone).
    by rewrite Hworld.
Qed.

(** ** The lookup of the edit view *)

(** X14. [EditOrganization.get_object] only reads: whatever the request, the
    world is unchanged and the result is [None] or an exception, never an
    organization. The lookup by key comes first: a key without an
    organization raises [Http404] for every user, an anonymous user makes
    the membership check raise [AttributeError], and a profile without an
    organization is denied. *)
Theorem edit_lookup_never_returns_the_organization request kwargs w :
  let r := EditOrganization_get_object request kwargs w in
  r.2 = w
  ∧ (r.1 = Returns None ∨ ∃ e, r.1 = Raises e)
  ∧ (∀ slug, kwargs !! "key" = Some slug →
       filter (has_key slug) (World.organizations w) = [] → r.1 = Raises Http404)
  ∧ (∀ slug org, kwargs !! "key" = Some slug →
       filter (has_key slug) (World.organizations w) = [org] →
       HttpRequest.user request = AnonymousUser → r.1 = Raises AttributeError)
  ∧ (∀ slug org profile p, kwargs !! "key" = Some slug →
       filter (has_key slug) (World.organizations w) = [org] →
       HttpRequest.user request = AuthenticatedUser profile →
       World.heap w !! profile = Some p →
       Profile.organization_id p = None → r.1 = Raises PermissionDenied).
Proof.
  intros r. subst r.
  assert ((EditOrganization_get_object request kwargs w).2 = w
          ∧ ((EditOrganization_get_object request kwargs w).1 = Returns None
             ∨ ∃ e, (EditOrganization_get_object request kwargs w).1 = Raises e)) as [Hw Hout].
  { destruct (EditOrganization_get_object request kwargs w) as [out w'] eqn:Hrun.
    cbn [fst snd]. revert Hrun.
    unfold EditOrganization_get_object, mbind at 1, M_bind.
    pose proof (get_object_reads kwargs w) as Hreads.
    destruct (SingleObjectMixin_get_object kwargs w) as [[object|e] w0];
      simpl in Hreads; subst w0; [|intros [= <- <-]; split; [done | right; by exists e]].
    unfold request_user_profile.
    destruct (HttpRequest.user request) as [|profile];
      [intros [= <- <-]; split; [done | right; by eexists]|].
    unfold mbind, M_bind, mret, M_ret, deref.
    destruct (World.heap w !! profile) as [p|];
      [|intros [= <- <-]; split; [done | right; by eexists]].
    case_decide; intros [= <- <-]; split; try done; [right; by eexists | by left]. }
  split_and!; [done | done | | |].
  - intros slug Hk Hrows. unfold EditOrganization_get_object.
    by rewrite (run_bind_raises _ _ _ _ _ (get_object_missing _ _ _ Hk Hrows)).
  - intros slug org Hk Hrows Hu. unfold EditOrganization_get_object.
    rewrite (run_bind _ _ _ _ _ (get_object_found _ _ _ _ Hk Hrows)).
    unfold request_user_profile. by rewrite Hu.
  - intros slug org profile p Hk Hrows Hu Hp Hnone.
    rewrite (EditOrganization_get_object_denies _ _ _ _ _ _ _ Hk Hrows Hu Hp); [done|].
    by rewrite Hnone.
Qed.

(** ** Member lists side by side *)

(** X15. The member lists of two organizations with different ids share no
    profile: whoever is listed for one is not listed for the other. *)
Theorem member_lists_do_not_overlap org1 org2 kwargs1 kwargs2 w :
  Organization.id org1 ≠ Organization.id org2 →
  ∃ context1 users1 context2 users2,
    OrganizationUsers_get_context_data org1 kwargs1 w = (Returns context1, w)
    ∧ context1 !! "users" = Some (CUsers users1)
    ∧ OrganizationUsers_get_context_data org2 kwargs2 w = (Returns context2, w)
    ∧ context2 !! "users" = Some (CUsers users2)
    ∧ ∀ rank1 rank2 q, (rank1, q) ∈ users1 → (rank2, q) ∉ users2.
Proof.
  intros Hne.
  destruct (OrganizationUsers_context_users org1 kwargs1 w) as (context1 & Hrun1 & Husers1).
  destruct (OrganizationUsers_context_users org2 kwargs2 w) as (context2 & Hrun2 & Husers2).
  exists context1, (ranker (roster org1 (World.profiles w))),
         context2, (ranker (roster org2 (World.profiles w))).
  split_and!; try done.
  intros rank1 rank2 q (_ & Hm1 & _)%elem_of_ranker%elem_of_roster
                       (_ & Hm2 & _)%elem_of_ranker%elem_of_roster.
  unfold is_member in *. congruence.
Qed.

(** X16. When every profile row of an organization belongs to an inactive
    user or has no points above zero, the [users] list of its member-list
    context is empty. *)
Theorem member_list_without_ranked_members_is_empty object kwargs w :
  (∀ q, q ∈ World.profiles w →
        Profile.organization_id q = Some (Organization.id object) →
        AuthUser.is_active (Profile.user q) = false ∨ (Profile.points q ≤ 0)%Z) →
  ∃ context,
    OrganizationUsers_get_context_data object kwargs w = (Returns context, w)
    ∧ context !! "users" = Some (CUsers []).
Proof.
  intros Hnone.
  destruct (OrganizationUsers_context_users object kwargs w) as (context & Hrun & Husers).
  exists context. split; [done|].
  assert (roster object (World.profiles w) = []) as Hempty.
  { destruct (roster object (World.profiles w)) as [|q items] eqn:Hroster; [done|].
    assert (q ∈ roster object (World.profiles w)) as Hq
      by (rewrite Hroster; apply list_elem_of_here).
    apply elem_of_roster in Hq as (Hrow & Hmember & Hpoints & Hactive).
    destruct (Hnone q Hrow Hmember) as [Hinactive|Hzero]; [congruence | lia]. }
  by rewrite Hempty in Husers.
Qed.

(** ** What the endpoints can change *)

(** X17. No endpoint of the module, on any request, changes a profile object, a
    profile row or a cache entry, and every endpoint but the creation one
    leaves the whole world as it was: the views that inherit
    [OrganizationMixin.dispatch] stop before their handlers, and the list
    view only reads. *)
Theorem endpoints_never_change_a_profile self request args kwargs w :
  let w' := (dispatch self request args kwargs w).2 in
  World.heap w' = World.heap w
  ∧ World.profiles w' = World.profiles w
  ∧ World.cache w' = World.cache w
  ∧ (w' = w ∨ self = NewOrganization).
Proof.
  intros w'. subst w'.
  assert (∀ w0 : World.t,
            w0 = w →
            World.heap w0 = World.heap w ∧ World.profiles w0 = World.profiles w
            ∧ World.cache w0 = World.cache w ∧ (w0 = w ∨ self = NewOrganization)) as Hsame.
  { intros w0 ->. split_and!; try done. by left. }
  destruct self.
  - apply Hsame. unfold dispatch, View_dispatch. by destruct (HttpRequest.method request).
  - by apply Hsame.
  - by apply Hsame.
  - apply Hsame. unfold dispatch, LoginRequiredMixin_dispatch.
    by destruct (HttpRequest.user request).
  - apply Hsame. unfold dispatch, LoginRequiredMixin_dispatch.
    by destruct (HttpRequest.user request).
  - apply Hsame. unfold dispatch, LoginRequiredMixin_dispatch.
    by destruct (HttpRequest.user request).
  - destruct (NewOrganization_dispatch_cases request args kwargs w)
      as [->|(profile & p & name & key & about & _ & _ & _ & _ & _ & _ & _ & ->)].
    + split_and!; try done. by left.
    + simpl. split_and!; try done. by right.
  - apply Hsame. unfold dispatch, EditOrganization_dispatch, try_except,
      LoginRequiredMixin_dispatch.
    by destruct (HttpRequest.user request).
Qed.

(** ** The handlers of the edit view *)

(** X18. For a profile that is not in the organization being edited, whether it
    is in another one or in none, the form page and the form submission of
    the edit view both stop at [get_object] with [PermissionDenied]; the
    world, and with it the organization's row, is as it was. *)
Theorem edit_handlers_deny_a_non_member request args kwargs w slug org profile p :
  kwargs !! "key" = Some slug →
  filter (has_key slug) (World.organizations w) = [org] →
  HttpRequest.user request = AuthenticatedUser profile →
  World.heap w !! profile = Some p →
  Profile.organization_id p ≠ Some (Organization.id org) →
  EditOrganization_get_object request kwargs w = (Raises PermissionDenied, w)
  ∧ UpdateView_get EditOrganization request args kwargs w = (Raises PermissionDenied, w)
  ∧ UpdateView_post EditOrganization request args kwargs w = (Raises PermissionDenied, w)
  ∧ filter (has_key slug)
      (World.organizations (UpdateView_post EditOrganization request args kwargs w).2) = [org].
Proof.
  intros Hk Hrows Hu Hp Hne.
  pose proof (EditOrganization_get_object_denies _ _ _ _ _ _ _ Hk Hrows Hu Hp Hne) as Hdenied.
  assert (UpdateView_post EditOrganization request args kwargs w = (Raises PermissionDenied, w))
    as Hpost by (unfold UpdateView_post; by rewrite (run_bind_raises _ _ _ _ _ Hdenied)).
  split_and!; [done | | done | by rewrite Hpost].
  unfold UpdateView_get. by rewrite (run_bind_raises _ _ _ _ _ Hdenied).
Qed.

End Views.

(** * The theorems on the sample data *)

#[local] Existing Instance Sample.clean.

Lemma join_handler_joins_and_redirects_witness :
  OrganizationMembershipChange_get JoinOrganization (Sample.request GET 10) []
      (Sample.kwargs "dmoj") Sample.world =
    (Returns (HttpResponseRedirect (reverse "organization_home" ["dmoj"])),
     membership_changed Sample.dmoj 10 (Profile.mk 7 Sample.alice 100 (Some 1) (Some 1000))
       Sample.world).
Proof.
  apply (join_handler_joins_and_redirects (Sample.request GET 10) [] (Sample.kwargs "dmoj")
           Sample.world "dmoj" Sample.dmoj 10 Sample.newcomer); reflexivity.
Defined.

Lemma leave_handler_leaves_and_redirects_witness :
  OrganizationMembershipChange_get LeaveOrganization (Sample.request GET 11) []
      (Sample.kwargs "dmoj") Sample.world =
    (Returns (HttpResponseRedirect (reverse "organization_home" ["dmoj"])),
     membership_changed Sample.dmoj 11 (Profile.mk 8 Sample.bob 120 None None) Sample.world).
Proof.
  apply (leave_handler_leaves_and_redirects (Sample.request GET 11) [] (Sample.kwargs "dmoj")
           Sample.world "dmoj" Sample.dmoj 11 Sample.member); reflexivity.
Defined.

Lemma refused_handler_changes_nothing_witness :
  OrganizationMembershipChange_get JoinOrganization (Sample.request GET 12) []
      (Sample.kwargs "dmoj") Sample.world =
    (Returns (GenericMessage "Joining organization" "You are already in an organization."),
     Sample.world)
  ∧ OrganizationMembershipChange_get LeaveOrganization (Sample.request GET 12) []
      (Sample.kwargs "dmoj") Sample.world =
    (Returns (GenericMessage "Leaving organization"
                ("You are not in " +:+ dquote +:+ "dmoj" +:+ dquote +:+ ".")),
     Sample.world).
Proof.
  pose proof (refused_handler_changes_nothing (Sample.request GET 12) []
                (Sample.kwargs "dmoj") Sample.world "dmoj" Sample.dmoj 12 Sample.outsider
                eq_refl eq_refl eq_refl eq_refl) as [Hjoin Hleave].
  split; [apply Hjoin | apply Hleave]; discriminate.
Defined.

Example organization_home_missing_key :
  filter (has_key "nope") (World.organizations Sample.world) = []
  ∧ dispatch OrganizationHome (Sample.request GET 10) [] (Sample.kwargs "nope") Sample.world =
      (Raises AttributeError, Sample.world).
Proof. split; reflexivity. Qed.

Example edit_by_non_member :
  Profile.organization_id Sample.newcomer ≠ Some (Organization.id Sample.dmoj)
  ∧ dispatch EditOrganization (Sample.request POST 10) [] (Sample.kwargs "dmoj") Sample.world =
      (Raises AttributeError, Sample.world).
Proof. split; [discriminate | reflexivity]. Qed.

Lemma edit_by_member_does_not_reach_the_organization_witness :
  EditOrganization_get_object (Sample.request POST 11) (Sample.kwargs "dmoj") Sample.world =
    (Returns None, Sample.world).
Proof.
  apply (edit_by_member_does_not_reach_the_organization (Sample.request POST 11) []
           (Sample.kwargs "dmoj") Sample.world "dmoj" Sample.dmoj 11 Sample.member);
    reflexivity.
Defined.

Lemma creation_is_gated_witness :
  dispatch NewOrganization (Sample.request POST 12) [] ∅ Sample.world =
    (Returns (GenericMessage "Can't add organization"
                "You need 50 points to add an organization."), Sample.world)
  ∧ dispatch NewOrganization (Sample.request POST 11) [] ∅ Sample.world =
    (Returns (GenericMessage "Can't add organization"
                "You are already in an organization."), Sample.world).
Proof.
  split.
  - apply (creation_is_gated (Sample.request POST 12) [] ∅ Sample.world 12 Sample.outsider
             eq_refl eq_refl). reflexivity.
  - apply (proj2 (creation_is_gated (Sample.request POST 11) [] ∅ Sample.world 11 Sample.member
                    eq_refl eq_refl) 1 Sample.dmoj); reflexivity.
Defined.

(** A profile with 50 points or more and no organization does get through:
    a valid form creates the record, with the profile as registrant. *)
Example creation_by_eligible_profile :
  let form : gmap string string :=
    {["name" := "Waterloo"; "key" := "uw"; "about" := "CS club"]} in
  let created := Organization.mk 3 "uw" "Waterloo" "CS club" (Some 7) in
  (dispatch NewOrganization (HttpRequest.mk POST (AuthenticatedUser 10) form) [] ∅ Sample.world).1
    = Returns (HttpResponseRedirect (get_absolute_url created))
  ∧ World.organizations
      (dispatch NewOrganization (HttpRequest.mk POST (AuthenticatedUser 10) form) [] ∅
         Sample.world).2
    = [Sample.dmoj; Sample.acm; created].
Proof. split; vm_compute; reflexivity. Qed.

Lemma points_check_precedes_membership_check_witness :
  dispatch NewOrganization (Sample.request GET 12) [] ∅ Sample.world =
    (Returns (GenericMessage "Can't add organization"
                "You need 50 points to add an organization."), Sample.world).
Proof.
  apply (points_check_precedes_membership_check (Sample.request GET 12) [] ∅ Sample.world 12
           Sample.outsider 2); reflexivity.
Defined.

Lemma one_organization_per_profile_witness :
  at_most_one_organization
    (dispatch NewOrganization
       (HttpRequest.mk POST (AuthenticatedUser 10)
          {["name" := "Waterloo"; "key" := "uw"; "about" := "CS club"]})
       [] ∅ Sample.world).2.
Proof.
  apply (one_organization_per_profile NewOrganization _ [] ∅ Sample.world).
  apply at_most_one_unique_ids. apply (bool_decide_unpack _). vm_compute. exact I.
Defined.

(** Ties share a rank and the next score takes the next rank, without a
    gap; inactive users, users without points and members of other
    organizations are left out. *)
Example member_list_ranks :
  let row pk points active org := Profile.mk pk (AuthUser.mk "" active) points org None in
  let rows := [row 1 40 true (Some 1); row 2 90 true (Some 1); row 3 90 true (Some 1);
               row 4 70 false (Some 1); row 5 0 true (Some 1); row 6 99 true (Some 2);
               row 7 10 true (Some 1)] in
  (λ '(rank, p), (rank, Profile.pk p)) <$> ranker (roster Sample.dmoj rows)
  = [(1, 2); (1, 3); (2, 1); (3, 7)].
Proof. vm_compute. reflexivity. Qed.

Lemma organization_not_found_quotes_the_key_witness :
  organization_not_found (Sample.request GET 10) (Some "nope") =
    GenericMessage "No such organization"
      ("Could not find an organization with the key " +:+ dquote +:+ "nope" +:+ dquote +:+ ".").
Proof.
  apply (organization_not_found_quotes_the_key (Sample.request GET 10)). discriminate.
Defined.

Lemma membership_request_touches_only_the_requester_witness :
  World.heap
    (OrganizationMembershipChange_get JoinOrganization (Sample.request GET 10) []
       (Sample.kwargs "dmoj") Sample.world).2 !! 11
  = World.heap Sample.world !! 11.
Proof.
  apply (membership_request_touches_only_the_requester JoinOrganization
           (Sample.request GET 10) [] (Sample.kwargs "dmoj") Sample.world).
  discriminate.
Defined.

Lemma join_then_leave_restores_the_profile_witness :
  World.heap
    (OrganizationMembershipChange_get LeaveOrganization (Sample.request GET 10) []
       (Sample.kwargs "dmoj")
       (OrganizationMembershipChange_get JoinOrganization (Sample.request GET 10) []
          (Sample.kwargs "dmoj") Sample.world).2).2
  = World.heap Sample.world.
Proof.
  apply (join_then_leave_restores_the_profile (Sample.request GET 10) [] (Sample.kwargs "dmoj")
           Sample.world "dmoj" Sample.dmoj 10 Sample.newcomer); reflexivity.
Defined.

Lemma joined_profile_must_leave_first_witness :
  let joined_world :=
    (OrganizationMembershipChange_get JoinOrganization (Sample.request GET 10) []
       (Sample.kwargs "dmoj") Sample.world).2 in
  OrganizationMembershipChange_get JoinOrganization (Sample.request GET 10) []
      (Sample.kwargs "acm") joined_world =
    (Returns (GenericMessage "Joining organization" "You are already in an organization."),
     joined_world).
Proof.
  apply (joined_profile_must_leave_first (Sample.request GET 10) [] (Sample.kwargs "dmoj")
           Sample.world "dmoj" Sample.dmoj 10 Sample.newcomer (Sample.kwargs "acm") "acm"
           Sample.acm); reflexivity.
Defined.

Lemma joined_profile_is_listed_witness :
  ∃ context users rank,
    OrganizationUsers_get_context_data Sample.dmoj ∅
      (OrganizationMembershipChange_get JoinOrganization (Sample.request GET 10) []
         (Sample.kwargs "dmoj") Sample.world).2
      = (Returns context,
         (OrganizationMembershipChange_get JoinOrganization (Sample.request GET 10) []
            (Sample.kwargs "dmoj") Sample.world).2)
    ∧ context !! "users" = Some (CUsers users)
    ∧ (rank, joined Sample.dmoj 1000 Sample.newcomer) ∈ users.
Proof.
  apply (joined_profile_is_listed (Sample.request GET 10) [] (Sample.kwargs "dmoj")
           Sample.world "dmoj" Sample.dmoj 10 Sample.newcomer ∅); try reflexivity.
  split; [reflexivity | reflexivity].
Defined.

Lemma left_profile_is_unlisted_witness :
  ∃ context users,
    OrganizationUsers_get_context_data Sample.dmoj ∅
      (OrganizationMembershipChange_get LeaveOrganization (Sample.request GET 11) []
         (Sample.kwargs "dmoj") Sample.world).2
      = (Returns context,
         (OrganizationMembershipChange_get LeaveOrganization (Sample.request GET 11) []
            (Sample.kwargs "dmoj") Sample.world).2)
    ∧ context !! "users" = Some (CUsers users)
    ∧ ∀ rank q, (rank, q) ∈ users → Profile.pk q ≠ Profile.pk Sample.member.
Proof.
  apply (left_profile_is_unlisted (Sample.request GET 11) [] (Sample.kwargs "dmoj")
           Sample.world "dmoj" Sample.dmoj 11 Sample.member Sample.dmoj ∅); try reflexivity.
  apply (bool_decide_unpack _). vm_compute. exact I.
Defined.

Lemma saved_profile_belongs_where_it_should_witness :
  ∃ p', World.heap
          (OrganizationMembershipChange_get JoinOrganization (Sample.request GET 10) []
             (Sample.kwargs "dmoj") Sample.world).2 !! 10 = Some p'
        ∧ p' ∈ World.profiles
                 (OrganizationMembershipChange_get JoinOrganization (Sample.request GET 10) []
                    (Sample.kwargs "dmoj") Sample.world).2
        ∧ organizations_of
            (OrganizationMembershipChange_get JoinOrganization (Sample.request GET 10) []
               (Sample.kwargs "dmoj") Sample.world).2 p' = [Sample.dmoj].
Proof.
  apply (saved_profile_belongs_where_it_should (Sample.request GET 10) [] (Sample.kwargs "dmoj")
           Sample.world "dmoj" Sample.dmoj 10 Sample.newcomer); try reflexivity.
  apply at_most_one_unique_ids. apply (bool_decide_unpack _). vm_compute. exact I.
Defined.

Lemma membership_lookup_comes_first_witness :
  OrganizationMembershipChange_get JoinOrganization (HttpRequest.mk GET AnonymousUser ∅) []
      (Sample.kwargs "nope") Sample.world =
    (Returns (organization_not_found (HttpRequest.mk GET AnonymousUser ∅) (Some "nope")),
     Sample.world).
Proof.
  apply (membership_lookup_comes_first JoinOrganization (HttpRequest.mk GET AnonymousUser ∅) []
           (Sample.kwargs "nope") Sample.world "nope"); reflexivity.
Defined.

Lemma anonymous_creation_request_raises_witness :
  dispatch NewOrganization (HttpRequest.mk GET AnonymousUser ∅) [] ∅ Sample.world =
    (Raises AttributeError, Sample.world).
Proof.
  apply (anonymous_creation_request_raises (HttpRequest.mk GET AnonymousUser ∅) [] ∅
           Sample.world). reflexivity.
Defined.

Lemma creation_adds_one_organization_witness :
  let form : gmap string string :=
    {["name" := "Waterloo"; "key" := "uw"; "about" := "CS club"]} in
  let fifty := Profile.mk 7 Sample.alice 50 None None in
  let w := World.set_heap {[10 := fifty]} Sample.world in
  World.organizations
    (dispatch NewOrganization (HttpRequest.mk POST (AuthenticatedUser 10) form) [] ∅ w).2
  = [Sample.dmoj; Sample.acm; Organization.mk 3 "uw" "Waterloo" "CS club" (Some 7)].
Proof.
  apply (creation_adds_one_organization
           (HttpRequest.mk POST (AuthenticatedUser 10)
              {["name" := "Waterloo"; "key" := "uw"; "about" := "CS club"]})
           [] ∅ (World.set_heap {[10 := Profile.mk 7 Sample.alice 50 None None]} Sample.world)
           10 (Profile.mk 7 Sample.alice 50 None None) "Waterloo" "uw" "CS club");
    try reflexivity; try (by left); simpl; lia.
Defined.

Lemma created_organization_is_joinable_witness :
  let form : gmap string string :=
    {["name" := "Waterloo"; "key" := "uw"; "about" := "CS club"]} in
  let created := Organization.mk 3 "uw" "Waterloo" "CS club" (Some 7) in
  let created_world :=
    (dispatch NewOrganization (HttpRequest.mk POST (AuthenticatedUser 10) form) [] ∅
       Sample.world).2 in
  OrganizationMembershipChange_get JoinOrganization (Sample.request GET 10) []
      (Sample.kwargs "uw") created_world =
    (Returns (HttpResponseRedirect (reverse "organization_home" ["uw"])),
     membership_changed created 10 (joined created 1000 Sample.newcomer) created_world).
Proof.
  apply (created_organization_is_joinable
           (HttpRequest.mk POST (AuthenticatedUser 10)
              {["name" := "Waterloo"; "key" := "uw"; "about" := "CS club"]})
           [] ∅ Sample.world 10 Sample.newcomer "Waterloo" "uw" "CS club"
           (Sample.request GET 10) [] (Sample.kwargs "uw"));
    try reflexivity; simpl; lia.
Defined.

Lemma member_lists_do_not_overlap_witness :
  ∃ context1 users1 context2 users2,
    OrganizationUsers_get_context_data Sample.dmoj ∅ Sample.world
      = (Returns context1, Sample.world)
    ∧ context1 !! "users" = Some (CUsers users1)
    ∧ OrganizationUsers_get_context_data Sample.acm ∅ Sample.world
      = (Returns context2, Sample.world)
    ∧ context2 !! "users" = Some (CUsers users2)
    ∧ ∀ rank1 rank2 q, (rank1, q) ∈ users1 → (rank2, q) ∉ users2.
Proof.
  apply (member_lists_do_not_overlap Sample.dmoj Sample.acm ∅ ∅ Sample.world).
  simpl. discriminate.
Defined.

Lemma member_list_without_ranked_members_is_empty_witness :
  let rows := [Profile.mk 1 Sample.carol 70 (Some 2) None;
               Profile.mk 2 Sample.dave 0 (Some 2) None;
               Profile.mk 3 Sample.bob 120 (Some 1) None] in
  ∃ context,
    OrganizationUsers_get_context_data Sample.acm ∅ (World.set_profiles rows Sample.world)
      = (Returns context, World.set_profiles rows Sample.world)
    ∧ context !! "users" = Some (CUsers []).
Proof.
  apply (member_list_without_ranked_members_is_empty Sample.acm ∅
           (World.set_profiles
              [Profile.mk 1 Sample.carol 70 (Some 2) None;
               Profile.mk 2 Sample.dave 0 (Some 2) None;
               Profile.mk 3 Sample.bob 120 (Some 1) None] Sample.world)).
  intros q Hq Hmember. simpl in Hq, Hmember.
  apply elem_of_cons in Hq as [->|Hq]; [by left|].
  apply elem_of_cons in Hq as [->|Hq]; [right; simpl; lia|].
  apply elem_of_cons in Hq as [->|Hq]; [discriminate Hmember|].
  by apply elem_of_nil in Hq.
Defined.

Lemma edit_handlers_deny_a_non_member_witness :
  UpdateView_post EditOrganization (Sample.request POST 12) [] (Sample.kwargs "dmoj")
    Sample.world
  = (Raises PermissionDenied, Sample.world).
Proof.
  apply (edit_handlers_deny_a_non_member (Sample.request POST 12) [] (Sample.kwargs "dmoj")
           Sample.world "dmoj" Sample.dmoj 12 Sample.outsider);
    (reflexivity || (simpl; discriminate)).
Defined.

Lemma join_request_raises_before_joining_witness :
  dispatch JoinOrganization (Sample.request GET 10) [] (Sample.kwargs "dmoj") Sample.world =
    (Raises AttributeError, Sample.world).
Proof.
  apply (join_request_raises_before_joining (Sample.request GET 10) [] (Sample.kwargs "dmoj")
           Sample.world "dmoj" Sample.dmoj 10 Sample.newcomer); reflexivity.
Defined.

Lemma leave_request_raises_before_leaving_witness :
  dispatch LeaveOrganization (Sample.request GET 11) [] (Sample.kwargs "dmoj") Sample.world =
    (Raises AttributeError, Sample.world).
Proof.
  apply (leave_request_raises_before_leaving (Sample.request GET 11) [] (Sample.kwargs "dmoj")
           Sample.world "dmoj" Sample.dmoj 11 Sample.member); reflexivity.
Defined.

Lemma refused_membership_request_raises_witness :
  dispatch JoinOrganization (Sample.request GET 12) [] (Sample.kwargs "dmoj") Sample.world =
    (Raises AttributeError, Sample.world)
  ∧ dispatch LeaveOrganization (Sample.request GET 12) [] (Sample.kwargs "dmoj") Sample.world =
    (Raises AttributeError, Sample.world).
Proof.
  pose proof (refused_membership_request_raises (Sample.request GET 12) []
                (Sample.kwargs "dmoj") Sample.world "dmoj" Sample.dmoj 12 Sample.outsider
                eq_refl eq_refl eq_refl eq_refl) as [Hjoin Hleave].
  split; [apply Hjoin | apply Hleave]; discriminate.
Defined.
